(** * Sidebar collapse decider of obsidian-side-hide-trigger

  A shallow embedding of [src/main.ts]: the settings record and its
  defaults, the loading of saved settings, the rule predicate
  [shouldCollapseSidebar] and the event handler [handleFileOpen], followed
  by the properties the specification states about them.

  JavaScript strings are sequences of UTF-16 code units; they are modelled
  as lists of [N].  The frontmatter of a file is an ordinary object: the
  finite map of its own properties, as the YAML parser of the host builds
  it, with [Object.prototype] behind it.  Converting a value to a string can
  throw; the handler has no [try], so the exception leaves it. *)

From Stdlib Require Import NArith ZArith Ascii String DecimalString List Bool
  Permutation.
From stdpp Require Import base option list gmap.
Import ListNotations.

Local Open Scope N_scope.

(** ** JavaScript strings *)

Module Js.

(** A string is the list of its UTF-16 code units. *)
Definition jsstring : Type := list N.

(** The code units of an ASCII literal of the source. *)
Fixpoint lit (s : string) : jsstring :=
  match s with
  | EmptyString => []
  | String c s' => N_of_ascii c :: lit s'
  end.

(** ECMAScript [WhiteSpace] and [LineTerminator] code points, the ones
    [String.prototype.trim] strips.  All of them are in the basic plane,
    hence single code units. *)
Definition isWhiteSpace (c : N) : bool :=
  (c =? 0x0009) || (c =? 0x000A) || (c =? 0x000B) || (c =? 0x000C)
  || (c =? 0x000D) || (c =? 0x0020) || (c =? 0x00A0) || (c =? 0x1680)
  || ((0x2000 <=? c) && (c <=? 0x200A))
  || (c =? 0x2028) || (c =? 0x2029) || (c =? 0x202F) || (c =? 0x205F)
  || (c =? 0x3000) || (c =? 0xFEFF).

Fixpoint trimStart (s : jsstring) : jsstring :=
  match s with
  | [] => []
  | c :: s' => if isWhiteSpace c then trimStart s' else s
  end.

Definition trimEnd (s : jsstring) : jsstring := rev (trimStart (rev s)).

(** [s.trim()] *)
Definition trim (s : jsstring) : jsstring := trimEnd (trimStart s).

(** [s.startsWith(t)], position 0. *)
Fixpoint startsWith (s t : jsstring) : bool :=
  match t, s with
  | [], _ => true
  | _ :: _, [] => false
  | b :: t', a :: s' => (a =? b) && startsWith s' t'
  end.

(** [s.endsWith(t)], end position the length of [s]. *)
Definition endsWith (s t : jsstring) : bool := startsWith (rev s) (rev t).

(** [s.substring(n)] *)
Definition substring (n : nat) (s : jsstring) : jsstring := drop n s.

(** [a === b] on two strings: same sequence of code units. *)
Definition strictEq (a b : jsstring) : bool := bool_decide (a = b).

(** [!s]: the empty string is the only falsy string. *)
Definition isEmpty (s : jsstring) : bool :=
  match s with [] => true | _ :: _ => false end.

(** [parts.join(sep)] on already converted parts. *)
Fixpoint join (sep : jsstring) (parts : list jsstring) : jsstring :=
  match parts with
  | [] => []
  | [p] => p
  | p :: ps => p ++ sep ++ join sep ps
  end.

End Js.

Import Js.

(** ** Settings (lines 6-25) *)

Record FrontmatterRule : Type := mkRule { key : jsstring; value : jsstring }.

Record MyPluginSettings : Type := mkSettings {
  collapsePaths : list jsstring;
  collapseFrontmatterRules : list FrontmatterRule
}.

(** The specification calls the settings record a rule set. *)
Abbreviation RuleSet := MyPluginSettings (only parsing).

Definition DEFAULT_SETTINGS : MyPluginSettings :=
  {| collapsePaths := [];
     collapseFrontmatterRules :=
       [ {| key := lit "hideside"; value := lit "true" |} ] |}.

(** ** Loading the settings (lines 112-114) *)

(** An object holding some of the properties of [MyPluginSettings]: what
  [loadData()] resolves to when a data file exists, and also the fresh
  target [{}] of [Object.assign]. *)
Record PartialSettings : Type := mkPartial {
  p_collapsePaths : option (list jsstring);
  p_collapseFrontmatterRules : option (list FrontmatterRule)
}.

Definition emptyObject : PartialSettings :=
  {| p_collapsePaths := None; p_collapseFrontmatterRules := None |}.

Definition asObject (s : MyPluginSettings) : PartialSettings :=
  {| p_collapsePaths := Some (collapsePaths s);
     p_collapseFrontmatterRules := Some (collapseFrontmatterRules s) |}.

(** Copying the own properties of one source onto the target: a property of
  the source overwrites the target's, a [null] source is skipped. *)
Definition assign1 (target : PartialSettings) (source : option PartialSettings)
  : PartialSettings :=
  match source with
  | None => target
  | Some src =>
      {| p_collapsePaths :=
           match p_collapsePaths src with
           | Some v => Some v
           | None => p_collapsePaths target
           end;
         p_collapseFrontmatterRules :=
           match p_collapseFrontmatterRules src with
           | Some v => Some v
           | None => p_collapseFrontmatterRules target
           end |}
  end.

(** [Object.assign(target, ...sources)], sources applied left to right. *)
Definition Object_assign (target : PartialSettings)
    (sources : list (option PartialSettings)) : PartialSettings :=
  fold_left assign1 sources target.

(** [loadSettings]: [loadData()] resolves to [null] ([None]) when nothing was
  saved. *)
Definition loadSettings (loadData : option PartialSettings) : PartialSettings :=
  Object_assign emptyObject [Some (asObject DEFAULT_SETTINGS); loadData].

(** ** Saving the settings (lines 119-121) *)

(** The plugin's data file as the host keeps it: [None] until something has
    been saved, then the object last given to [saveData]. *)
Definition DataFile : Type := option PartialSettings.

(** [saveSettings]: [saveData(this.settings)]. *)
Definition saveSettings (st : MyPluginSettings) : DataFile := Some (asObject st).

(** Reading [this.settings.collapsePaths] and
    [this.settings.collapseFrontmatterRules] off the loaded object; a property
    the object lacks would read as [undefined]. *)
Definition readSettings (o : PartialSettings) : option MyPluginSettings :=
  match p_collapsePaths o, p_collapseFrontmatterRules o with
  | Some paths, Some rules => Some (mkSettings paths rules)
  | _, _ => None
  end.

(** What the plugin holds after the settings part of [onload] (line 35) and
    after each later save: the settings in memory and the data file. *)
Record PluginState : Type := mkPluginState {
  st_settings : MyPluginSettings;
  st_data : DataFile
}.

(** [onload], as far as the settings go: [await this.loadSettings()]. *)
Definition onload (data : DataFile) : option PluginState :=
  match readSettings (loadSettings data) with
  | Some st => Some {| st_settings := st; st_data := data |}
  | None => None
  end.

(** ** The settings tab (lines 138-203) *)

(** The separator of the text area, the line feed. *)
Definition newline : N := 0x000A.

(** [s.split(sep)] for a separator of one code unit: the pieces between the
    occurrences of [sep], one more than there are occurrences. *)
Fixpoint splitOn (sep : N) (s : jsstring) : list jsstring :=
  match s with
  | [] => [[]]
  | c :: s' =>
      if c =? sep then [] :: splitOn sep s'
      else match splitOn sep s' with
           | piece :: pieces => (c :: piece) :: pieces
           | [] => [[c]]
           end
  end.

(** What the text area is filled with (line 155):
    [collapsePaths.join('\n')]. *)
Definition textAreaValue (st : MyPluginSettings) : jsstring :=
  join [newline] (collapsePaths st).

(** The callbacks of the tab.  The rows of the rule list are rendered from
    the list itself, so a row's [index] is a position of the list as it was
    when the tab was last rendered, which is after every deletion and
    addition. *)
Inductive TabEvent : Type :=
| PathsChanged (value : jsstring)               (* lines 156-159 *)
| KeyChanged (index : nat) (value : jsstring)   (* lines 171-174 *)
| ValueChanged (index : nat) (value : jsstring) (* lines 178-181 *)
| DeleteClicked (index : nat)                   (* lines 185-189 *)
| AddClicked.                                   (* lines 198-202 *)

(** The change a callback makes to the settings in memory:
    [collapsePaths = value.split('\n')], [rule.key = value],
    [rule.value = value], [collapseFrontmatterRules.splice(index, 1)],
    [collapseFrontmatterRules.push({ key: '', value: '' })]. *)
Definition mutate (ev : TabEvent) (st : MyPluginSettings) : MyPluginSettings :=
  match ev with
  | PathsChanged v =>
      mkSettings (splitOn newline v) (collapseFrontmatterRules st)
  | KeyChanged index v =>
      mkSettings (collapsePaths st)
        (alter (fun rule => mkRule v (value rule)) index
           (collapseFrontmatterRules st))
  | ValueChanged index v =>
      mkSettings (collapsePaths st)
        (alter (fun rule => mkRule (key rule) v) index
           (collapseFrontmatterRules st))
  | DeleteClicked index =>
      mkSettings (collapsePaths st) (delete index (collapseFrontmatterRules st))
  | AddClicked =>
      mkSettings (collapsePaths st)
        (collapseFrontmatterRules st ++ [mkRule [] []])
  end.

(** Every callback ends with [await this.plugin.saveSettings()]. *)
Definition onTabEvent (ev : TabEvent) (ps : PluginState) : PluginState :=
  let st := mutate ev (st_settings ps) in
  {| st_settings := st; st_data := saveSettings st |}.

(** A session in the tab: the events in the order they happen. *)
Definition tabSession (evs : list TabEvent) (ps : PluginState) : PluginState :=
  fold_left (fun ps ev => onTabEvent ev ps) evs ps.

(** ** Files and their metadata *)

(** The two fields of the host's [TFile] the code reads. *)
Record TFile : Type := mkFile { path : jsstring; extension : jsstring }.

(** ** Concrete inputs for the examples *)

Module Examples.

(** Integral numbers with their decimal text. *)
Definition Integer_toString (n : Z) : jsstring :=
  lit (DecimalString.NilZero.string_of_int (Z.to_int n)).

Definition image : TFile := mkFile (lit "attachments/img.png") (lit "png").
Definition note : TFile := mkFile (lit "docs/a.md") (lit "md").
Definition board : TFile := mkFile (lit "b/plan.canvas") (lit "canvas").
Definition paper : TFile := mkFile (lit "a.pdf") (lit "pdf").

Definition hideside : FrontmatterRule := mkRule (lit "hideside") (lit "true").
Definition kanban : FrontmatterRule :=
  mkRule (lit "kanban-plugin") (lit "board ").

End Examples.


(** ** Evaluation outcomes *)

(** What evaluating an expression or a call ends in: a value, or a thrown
    [TypeError], the one exception the code at hand can raise. *)
Inductive Outcome (A : Type) : Type :=
| Returned (a : A)
| Thrown.

Arguments Returned {A} a.
Arguments Thrown {A}.

(** [array.some(callback)]: the elements in order, stopping at the first for
    which the callback returns true, or throws. *)
Fixpoint Array_some {A} (callback : A -> Outcome bool) (l : list A)
  : Outcome bool :=
  match l with
  | [] => Returned false
  | x :: l' =>
      match callback x with
      | Thrown => Thrown
      | Returned true => Returned true
      | Returned false => Array_some callback l'
      end
  end.

Section Decider.

(** Numbers of the host are IEEE doubles; the decider only ever converts
    them to strings, so both the type and [Number::toString] are left
    abstract. *)
Context {number : Type} (Number_toString : number -> jsstring).

(** Modelled from the spec: the values of the host's frontmatter record,
    whose declaration is not among the sources.  The specification names
    strings, numbers and booleans; a YAML block can also hold [null], lists
    and nested mappings.  A nested mapping is an ordinary object, given by
    its own properties. *)
#[local] Unset Elimination Schemes.
Inductive JsValue : Type :=
| JNull
| JBool (b : bool)
| JNumber (n : number)
| JString (s : jsstring)
| JArray (elems : list JsValue)
| JObject (fields : list (jsstring * JsValue)).
#[local] Set Elimination Schemes.

(** Whether an ordinary object has an own property of that name. *)
Definition hasOwn (name : jsstring) (fields : list (jsstring * JsValue)) : bool :=
  existsb (fun field => strictEq (fst field) name) fields.

(** [ToString] on a value of the frontmatter.  An array joins its elements
    with a comma, [null] elements giving the empty string.  An ordinary
    object goes through [toString] and then [valueOf]: the inherited
    [toString] gives [[object Object]]; an own property [toString] hides it
    and, being data, is not callable, and [valueOf], own or inherited, gives
    no primitive value either, so the conversion throws. *)
Fixpoint ToString (v : JsValue) : Outcome jsstring :=
  match v with
  | JNull => Returned (lit "null")
  | JBool true => Returned (lit "true")
  | JBool false => Returned (lit "false")
  | JNumber n => Returned (Number_toString n)
  | JString s => Returned s
  | JArray elems =>
      match
        (fix parts (l : list JsValue) : Outcome (list jsstring) :=
           match l with
           | [] => Returned []
           | e :: l' =>
               match (match e with JNull => Returned [] | _ => ToString e end) with
               | Thrown => Thrown
               | Returned p =>
                   match parts l' with
                   | Thrown => Thrown
                   | Returned ps => Returned (p :: ps)
                   end
               end
           end) elems
      with
      | Thrown => Thrown
      | Returned ps => Returned (join (lit ",") ps)
      end
  | JObject fields =>
      if hasOwn (lit "toString") fields then Thrown
      else Returned (lit "[object Object]")
  end.

(** What a property read can give: [undefined], a value of the frontmatter,
    a built-in function of [Object.prototype], or [Object.prototype]
    itself. *)
Inductive Read : Type :=
| RUndefined
| ROwn (v : JsValue)
| RFunction (name : jsstring)
| RObjectPrototype.

(** The function-valued properties of [Object.prototype] other than
    [constructor]; each has its property name as its [name]. *)
Definition ObjectPrototype_methods : list jsstring :=
  [ lit "__defineGetter__"; lit "__defineSetter__"; lit "hasOwnProperty";
    lit "__lookupGetter__"; lit "__lookupSetter__"; lit "isPrototypeOf";
    lit "propertyIsEnumerable"; lit "toString"; lit "valueOf";
    lit "toLocaleString" ].

(** Reading a property off [Object.prototype], for an object that inherits
    from it: [constructor] is the function [Object], the accessor [__proto__]
    gives the prototype of the receiver, which is [Object.prototype]. *)
Definition ObjectPrototype_get (name : jsstring) : Read :=
  if strictEq name (lit "constructor") then RFunction (lit "Object")
  else if strictEq name (lit "__proto__") then RObjectPrototype
  else if existsb (strictEq name) ObjectPrototype_methods then RFunction name
  else RUndefined.

(** [frontmatter[name]]: the own property, else the inherited one. *)
Definition Get (fm : gmap jsstring JsValue) (name : jsstring) : Read :=
  match fm !! name with
  | Some v => ROwn v
  | None => ObjectPrototype_get name
  end.

(** [String(x)] on the result of a property read.  The text of a built-in
    function is the one of the host's engine (V8). *)
Definition String_ (x : Read) : Outcome jsstring :=
  match x with
  | RUndefined => Returned (lit "undefined")
  | ROwn v => ToString v
  | RFunction name =>
      Returned (lit "function " ++ name ++ lit "() { [native code] }")
  | RObjectPrototype => Returned (lit "[object Object]")
  end.

(** [x !== undefined] *)
Definition isDefined (x : Read) : bool :=
  match x with RUndefined => false | _ => true end.

(** Modelled from the spec: the host's [CachedMetadata], of which only the
    optional [frontmatter] is read: an object mapping string keys to
    values. *)
Record CachedMetadata : Type := mkCache {
  frontmatter : option (gmap jsstring JsValue)
}.

(** The specification's [FileContext]: the opened file together with what
    the metadata cache answers for it ([null] when the file is not
    indexed). *)
Record FileContext : Type := mkContext {
  ctx_file : TFile;
  ctx_fileCache : option CachedMetadata
}.

(** [fileCache?.frontmatter] *)
Definition ctx_frontmatter (fileCache : option CachedMetadata)
  : option (gmap jsstring JsValue) :=
  match fileCache with
  | None => None
  | Some c => frontmatter c
  end.

(** *** The rule callbacks *)

(** The callback given to [collapsePaths.some] (lines 78-91). *)
Definition pathRuleMatches (file : TFile) (settingPath : jsstring) : bool :=
  let trimmedPath := trim settingPath in
  if isEmpty trimmedPath then false
  else if endsWith trimmedPath (lit "/") then
    startsWith (path file) trimmedPath
  else if startsWith trimmedPath (lit ".") then
    strictEq (extension file) (substring 1 trimmedPath)
  else false.

(** The callback given to [collapseFrontmatterRules.some]
    (lines 100-103); [&&] does not convert an undefined value. *)
Definition frontmatterRuleMatches (fm : gmap jsstring JsValue)
    (rule : FrontmatterRule) : Outcome bool :=
  let frontmatterValue : Read := Get fm (key rule) in
  if isDefined frontmatterValue then
    match String_ frontmatterValue with
    | Thrown => Thrown
    | Returned text => Returned (strictEq (trim text) (trim (value rule)))
    end
  else Returned false.

(** What a rule gets to see of a property read: nothing when it is
    undefined, else the trimmed text, if the conversion gives one. *)
Definition trimmedText (x : Read) : option (Outcome jsstring) :=
  if isDefined x then
    Some (match String_ x with
          | Thrown => Thrown
          | Returned text => Returned (trim text)
          end)
  else None.

(** *** The host: sidebar and metadata cache *)

(** Calls made on the collaborators, in the order they happen. *)
Inductive Call : Type :=
| CallGetFileCache (file : TFile)
| CallCollapse
| CallExpand.

Record AppState : Type := mkState {
  leftSplit_collapsed : bool;
  calls : list Call
}.

(** A computation on the host: it ends in a value or in a thrown exception,
    and either way in a state. *)
Definition M (A : Type) : Type := AppState -> Outcome A * AppState.

Definition ret {A} (a : A) : M A := fun s => (Returned a, s).

Definition bind {A B} (m : M A) (k : A -> M B) : M B :=
  fun s =>
    match m s with
    | (Returned a, s') => k a s'
    | (Thrown, s') => (Thrown, s')
    end.

(** A pure evaluation inside a computation. *)
Definition eval {A} (o : Outcome A) : M A := fun s => (o, s).

Definition called (c : Call) (s : AppState) : AppState :=
  {| leftSplit_collapsed := leftSplit_collapsed s;
     calls := calls s ++ [c] |}.

(** [this.app.workspace.leftSplit.collapse()] *)
Definition collapse : M unit :=
  fun s => (Returned tt, {| leftSplit_collapsed := true;
                            calls := calls s ++ [CallCollapse] |}).

(** [this.app.workspace.leftSplit.expand()] *)
Definition expand : M unit :=
  fun s => (Returned tt, {| leftSplit_collapsed := false;
                            calls := calls s ++ [CallExpand] |}).

Record MyPlugin : Type := mkPlugin {
  settings : MyPluginSettings;
  metadataCache : TFile -> option CachedMetadata
}.

(** [this.app.metadataCache.getFileCache(file)] *)
Definition getFileCache (this : MyPlugin) (file : TFile)
  : M (option CachedMetadata) :=
  fun s => (Returned (metadataCache this file),
            called (CallGetFileCache file) s).

Notation "x <- m ;; k" := (bind m (fun x => k))
  (at level 100, m at next level, right associativity).

(** [shouldCollapseSidebar] (lines 76-107). *)
Definition shouldCollapseSidebar (this : MyPlugin) (file : TFile) : M bool :=
  let pathMatches :=
    existsb (pathRuleMatches file) (collapsePaths (settings this)) in
  if pathMatches then ret true
  else
    fileCache <- getFileCache this file ;;
    match ctx_frontmatter fileCache with
    | Some fm =>
        eval (Array_some (frontmatterRuleMatches fm)
                (collapseFrontmatterRules (settings this)))
    | None => ret false
    end.

(** [handleFileOpen] (lines 50-70); [None] is the [null] file. *)
Definition handleFileOpen (this : MyPlugin) (file : option TFile) : M unit :=
  match file with
  | None => ret tt
  | Some file =>
      if ((length (collapsePaths (settings this)) =? 0)%nat
          && (length (collapseFrontmatterRules (settings this)) =? 0)%nat)
      then expand
      else
        shouldCollapse <- shouldCollapseSidebar this file ;;
        if shouldCollapse then collapse else expand
  end.

(** *** The decision *)

Definition pluginFor (ctx : FileContext) (rules : RuleSet) : MyPlugin :=
  {| settings := rules; metadataCache := fun _ => ctx_fileCache ctx |}.

Definition initialState : AppState :=
  {| leftSplit_collapsed := false; calls := [] |}.

(** Running the handler on the file of [ctx], from a fresh state: the state
    it ends in. *)
Definition run (ctx : FileContext) (rules : RuleSet) : AppState :=
  snd (handleFileOpen (pluginFor ctx rules) (Some (ctx_file ctx)) initialState).

(** The specification's [decide]: whether the handler leaves the sidebar
    collapsed, when it returns. *)
Definition decide (ctx : FileContext) (rules : RuleSet) : Outcome bool :=
  match
    fst (handleFileOpen (pluginFor ctx rules) (Some (ctx_file ctx))
           initialState)
  with
  | Returned _ => Returned (leftSplit_collapsed (run ctx rules))
  | Thrown => Thrown
  end.

(** The frontmatter half of [shouldCollapseSidebar] (lines 98-106), as a
    function of what the metadata cache answered. *)
Definition frontmatterMatches (fileCache : option CachedMetadata)
    (rules : list FrontmatterRule) : Outcome bool :=
  match ctx_frontmatter fileCache with
  | Some fm => Array_some (frontmatterRuleMatches fm) rules
  | None => Returned false
  end.

(** What [shouldCollapseSidebar] comes to for a plugin and a file: true on
    a matching path rule, else the frontmatter half. *)
Definition verdict (this : MyPlugin) (file : TFile) : Outcome bool :=
  if existsb (pathRuleMatches file) (collapsePaths (settings this))
  then Returned true
  else frontmatterMatches (metadataCache this file)
         (collapseFrontmatterRules (settings this)).

(** *** The plugin at work *)

(** What happens to a loaded plugin: the host announces an opened file
    (line 42), with the metadata cache as it is at that moment, or the user
    acts in the settings tab. *)
Inductive Event : Type :=
| FileOpened (file : option TFile) (cache : TFile -> option CachedMetadata)
| TabChanged (ev : TabEvent).

Record World : Type := mkWorld {
  w_plugin : PluginState;
  w_app : AppState
}.

(** The registered handler reads [this.settings] when it runs; an exception
    that leaves it stays with the host's dispatcher.  The tab's callbacks
    write the settings and the data file and nothing else. *)
Definition step (w : World) (ev : Event) : World :=
  match ev with
  | FileOpened file cache =>
      {| w_plugin := w_plugin w;
         w_app := snd (handleFileOpen
                         (mkPlugin (st_settings (w_plugin w)) cache)
                         file (w_app w)) |}
  | TabChanged ev =>
      {| w_plugin := onTabEvent ev (w_plugin w); w_app := w_app w |}
  end.

Definition runEvents (evs : list Event) (w : World) : World :=
  fold_left step evs w.

(** The events that open no file: the tab's, and the [null] file. *)
Definition opensNoFile (ev : Event) : bool :=
  match ev with
  | FileOpened (Some _) _ => false
  | FileOpened None _ => true
  | TabChanged _ => true
  end.

(** ** Facts about the string operations *)

Lemma startsWith_prefix (s t : jsstring) :
  startsWith s t = true <-> exists rest, s = t ++ rest.
Proof.
  revert s; induction t as [|b t IH]; intros s; simpl.
  - split; [intros _; now exists s | now destruct s].
  - destruct s as [|a s]; simpl.
    + split; [discriminate | intros [rest H]; discriminate].
    + rewrite andb_true_iff, N.eqb_eq, IH. split.
      * intros [-> [rest ->]]. now exists rest.
      * intros [rest H]. injection H as -> ->. split; [reflexivity | now exists rest].
Qed.

Lemma startsWith_nil_l (t : jsstring) : startsWith [] t = isEmpty t.
Proof. now destruct t. Qed.

Lemma endsWith_nonempty (s t : jsstring) :
  endsWith s t = true -> isEmpty t = false -> isEmpty s = false.
Proof.
  unfold endsWith. destruct s as [|a s]; [|reflexivity].
  intros H Ht. exfalso. change (rev (@nil N)) with (@nil N) in H.
  rewrite startsWith_nil_l in H.
  destruct t as [|b t]; [discriminate|].
  simpl in H. destruct (rev t); discriminate.
Qed.

Lemma trimStart_blank (s : jsstring) :
  forallb isWhiteSpace s = true -> trimStart s = [].
Proof.
  induction s as [|c s IH]; simpl; [reflexivity|].
  rewrite andb_true_iff. intros [-> H]. now apply IH.
Qed.

Lemma trim_blank (s : jsstring) :
  forallb isWhiteSpace s = true -> trim s = [].
Proof. intros H. unfold trim. now rewrite (trimStart_blank s H). Qed.

Lemma strictEq_true (a b : jsstring) : strictEq a b = true <-> a = b.
Proof. unfold strictEq. apply bool_decide_eq_true. Qed.

Example trim_strips_both_ends :
  trim (lit "  docs/ ") = lit "docs/"
  /\ trim [0x3000; 65; 32; 66; 0xFEFF; 10] = [65; 32; 66].
Proof. split; reflexivity. Qed.

Example endsWith_slash :
  endsWith (lit "a/") (lit "/") = true
  /\ endsWith (lit "/a") (lit "/") = false
  /\ endsWith [] (lit "/") = false.
Proof. repeat split; reflexivity. Qed.

Example ToString_array (n : number) :
  ToString (JArray [JString (lit "a"); JNull; JBool true; JObject []; JNumber n])
  = Returned (lit "a,,true,[object Object]," ++ Number_toString n).
Proof. reflexivity. Qed.

Example ToString_own_toString :
  ToString (JObject [(lit "toString", JString (lit "x"))]) = Thrown
  /\ ToString (JArray [JBool true;
                       JObject [(lit "toString", JString (lit "x"))]]) = Thrown
  /\ ToString (JObject [(lit "valueOf", JString (lit "x"))])
     = Returned (lit "[object Object]").
Proof. repeat split; reflexivity. Qed.

Example Get_inherited (fm : gmap jsstring JsValue) :
  fm !! lit "constructor" = None ->
  fm !! lit "__proto__" = None ->
  fm !! lit "hideside" = None ->
  String_ (Get fm (lit "constructor"))
  = Returned (lit "function Object() { [native code] }")
  /\ String_ (Get fm (lit "__proto__")) = Returned (lit "[object Object]")
  /\ Get fm (lit "hideside") = RUndefined.
Proof. intros H1 H2 H3. unfold Get. rewrite H1, H2, H3. repeat split. Qed.

(** ** Facts about the rule callbacks *)

Lemma pathRuleMatches_inert (file : TFile) (entry : jsstring) :
  isEmpty (trim entry) = true
  \/ (endsWith (trim entry) (lit "/") = false
      /\ startsWith (trim entry) (lit ".") = false) ->
  pathRuleMatches file entry = false.
Proof.
  unfold pathRuleMatches. cbv zeta.
  intros [-> | [-> ->]]; [reflexivity|].
  now destruct (isEmpty (trim entry)).
Qed.

Lemma existsb_Permutation {A} (f : A -> bool) (l l' : list A) :
  Permutation l l' -> existsb f l = existsb f l'.
Proof.
  induction 1 as [| x l l' _ IH | x y l | l l' l'' _ IH1 _ IH2]; simpl.
  - reflexivity.
  - now rewrite IH.
  - now destruct (f x), (f y).
  - congruence.
Qed.


Lemma Array_some_false {A} (f : A -> Outcome bool) (l : list A) :
  Array_some f l = Returned false <-> forall x, In x l -> f x = Returned false.
Proof.
  induction l as [|y l IH]; cbn [Array_some].
  - split; [intros _ x [] | reflexivity].
  - destruct (f y) as [[|]|] eqn:E.
    + split; [discriminate|]. intros H. specialize (H y (or_introl eq_refl)).
      congruence.
    + rewrite IH. split.
      * intros H x [<-|Hx]; [exact E | now apply H].
      * intros H x Hx. apply H. now right.
    + split; [discriminate|]. intros H. specialize (H y (or_introl eq_refl)).
      congruence.
Qed.

Lemma Array_some_true {A} (f : A -> Outcome bool) (l : list A) :
  Array_some f l = Returned true -> exists x, In x l /\ f x = Returned true.
Proof.
  induction l as [|y l IH]; cbn [Array_some]; [discriminate|].
  destruct (f y) as [[|]|] eqn:E.
  - intros _. exists y. split; [now left | exact E].
  - intros H. destruct (IH H) as [x [Hx Hf]]. exists x. split; [now right | exact Hf].
  - discriminate.
Qed.

Lemma Array_some_app {A} (f : A -> Outcome bool) (l1 l2 : list A) :
  Array_some f (l1 ++ l2)
  = match Array_some f l1 with
    | Returned false => Array_some f l2
    | o => o
    end.
Proof.
  induction l1 as [|y l1 IH]; cbn [app Array_some]; [reflexivity|].
  now destruct (f y) as [[|]|].
Qed.

Lemma Array_some_ext_in {A} (f g : A -> Outcome bool) (l : list A) :
  (forall x, In x l -> f x = g x) -> Array_some f l = Array_some g l.
Proof.
  induction l as [|x l IH]; cbn [Array_some]; [reflexivity|]. intros H.
  rewrite (H x) by now left.
  rewrite IH; [reflexivity|]. intros y Hy. apply H. now right.
Qed.

(** Where no element makes the callback throw, [some] is a disjunction. *)
Lemma Array_some_existsb {A} (f : A -> Outcome bool) (l : list A) :
  (forall x, In x l -> f x <> Thrown) ->
  Array_some f l
  = Returned (existsb (fun x => match f x with
                                | Returned true => true
                                | _ => false
                                end) l).
Proof.
  induction l as [|x l IH]; cbn [Array_some existsb]; [reflexivity|]. intros H.
  pose proof (H x (or_introl eq_refl)) as Hx.
  destruct (f x) as [[|]|]; [reflexivity | | congruence].
  cbn [orb]. apply IH. intros y Hy. apply H. now right.
Qed.

(** ** What the handler does *)

Lemma shouldCollapseSidebar_path (this : MyPlugin) (file : TFile) (s : AppState) :
  existsb (pathRuleMatches file) (collapsePaths (settings this)) = true ->
  shouldCollapseSidebar this file s = (Returned true, s).
Proof. intros H. unfold shouldCollapseSidebar. now rewrite H. Qed.

Lemma shouldCollapseSidebar_frontmatter (this : MyPlugin) (file : TFile)
    (s : AppState) :
  existsb (pathRuleMatches file) (collapsePaths (settings this)) = false ->
  shouldCollapseSidebar this file s =
    (frontmatterMatches (metadataCache this file)
       (collapseFrontmatterRules (settings this)),
     called (CallGetFileCache file) s).
Proof.
  intros H. unfold shouldCollapseSidebar, frontmatterMatches. rewrite H.
  unfold bind, getFileCache.
  now destruct (ctx_frontmatter (metadataCache this file)).
Qed.

Lemma frontmatterMatches_nil (fileCache : option CachedMetadata) :
  frontmatterMatches fileCache [] = Returned false.
Proof. unfold frontmatterMatches. now destruct (ctx_frontmatter fileCache). Qed.

(** The handler on a present file, from any state. *)
Lemma handleFileOpen_present (this : MyPlugin) (file : TFile) (s : AppState) :
  handleFileOpen this (Some file) s =
    if (length (collapsePaths (settings this)) =? 0)%nat
       && (length (collapseFrontmatterRules (settings this)) =? 0)%nat
    then (Returned tt, {| leftSplit_collapsed := false;
                          calls := calls s ++ [CallExpand] |})
    else if existsb (pathRuleMatches file) (collapsePaths (settings this))
    then (Returned tt, {| leftSplit_collapsed := true;
                          calls := calls s ++ [CallCollapse] |})
    else
      match frontmatterMatches (metadataCache this file)
              (collapseFrontmatterRules (settings this)) with
      | Returned b =>
          (Returned tt,
           {| leftSplit_collapsed := b;
              calls := calls s ++ [CallGetFileCache file;
                                   if b then CallCollapse else CallExpand] |})
      | Thrown =>
          (Thrown, {| leftSplit_collapsed := leftSplit_collapsed s;
                      calls := calls s ++ [CallGetFileCache file] |})
      end.
Proof.
  unfold handleFileOpen. destruct (_ && _); [reflexivity|].
  unfold bind.
  destruct (existsb (pathRuleMatches file) (collapsePaths (settings this)))
    eqn:E.
  - now rewrite shouldCollapseSidebar_path by exact E.
  - rewrite shouldCollapseSidebar_frontmatter by exact E.
    destruct (frontmatterMatches _ _) as [[|]|]; unfold collapse, expand, called;
      cbn; now rewrite <- ?app_assoc.
Qed.

(** The decision as a formula over the two rule lists. *)
Lemma decide_eq (ctx : FileContext) (rules : RuleSet) :
  decide ctx rules =
    if existsb (pathRuleMatches (ctx_file ctx)) (collapsePaths rules)
    then Returned true
    else frontmatterMatches (ctx_fileCache ctx) (collapseFrontmatterRules rules).
Proof.
  unfold decide, run. rewrite handleFileOpen_present.
  destruct rules as [paths fmRules].
  cbn [pluginFor settings collapsePaths collapseFrontmatterRules metadataCache].
  destruct (_ && _) eqn:Hempty.
  - destruct paths, fmRules; try discriminate Hempty.
    cbn. now rewrite frontmatterMatches_nil.
  - destruct (existsb (pathRuleMatches (ctx_file ctx)) paths); [reflexivity|].
    now destruct (frontmatterMatches _ _) as [[|]|].
Qed.

(** ** Precedence, defaults and the absent file *)

(** C1: when some path rule matches the file, the decision is to collapse
    whatever the metadata cache holds for the file and whatever the
    frontmatter rules are; the handler then calls [collapse] and nothing
    else, so the metadata cache is not even asked. *)
Theorem path_rule_takes_precedence (file : TFile) (paths : list jsstring) :
  existsb (pathRuleMatches file) paths = true ->
  forall (fileCache : option CachedMetadata) (fmRules : list FrontmatterRule),
    decide (mkContext file fileCache) (mkSettings paths fmRules) = Returned true
    /\ forall (mc : TFile -> option CachedMetadata) (s : AppState),
         handleFileOpen (mkPlugin (mkSettings paths fmRules) mc) (Some file) s =
           (Returned tt, {| leftSplit_collapsed := true;
                            calls := calls s ++ [CallCollapse] |}).
Proof.
  intros Hpath fileCache fmRules. split.
  - rewrite decide_eq. cbn [ctx_file collapsePaths]. now rewrite Hpath.
  - intros mc s. rewrite handleFileOpen_present.
    cbn [settings collapsePaths collapseFrontmatterRules].
    destruct paths as [|p paths]; [discriminate Hpath|].
    cbn [length Nat.eqb andb]. now rewrite Hpath.
Qed.

(** C2: with no path rule and no frontmatter rule the decision is to
    expand, for every file context; the handler calls [expand] only. *)
Theorem empty_rules_expand (ctx : FileContext) :
  decide ctx (mkSettings [] []) = Returned false
  /\ forall (mc : TFile -> option CachedMetadata) (file : TFile) (s : AppState),
       handleFileOpen (mkPlugin (mkSettings [] []) mc) (Some file) s =
         (Returned tt, {| leftSplit_collapsed := false;
                          calls := calls s ++ [CallExpand] |}).
Proof. split; reflexivity. Qed.

(** C8: on an absent file the handler returns at once: no call is made on
    the sidebar or on the metadata cache and the state is the one it
    started from, whatever the rules are. *)
Theorem absent_file_is_noop (this : MyPlugin) (s : AppState) :
  handleFileOpen this None s = (Returned tt, s).
Proof. reflexivity. Qed.

(** ** Path rules *)

(** C3: an entry whose trimmed text ends with [/] matches a file exactly
    when the file's path starts with the trimmed entry, code unit by code
    unit; [attachments/] matches [attachments/img.png] and does not match
    [notes/attachments/img.png]. *)
Theorem folder_rule_is_prefix_match :
  (forall (file : TFile) (entry : jsstring),
     endsWith (trim entry) (lit "/") = true ->
     pathRuleMatches file entry = startsWith (path file) (trim entry)
     /\ (pathRuleMatches file entry = true <->
         exists rest, path file = trim entry ++ rest))
  /\ (forall ext fileCache fmRules,
        pathRuleMatches (mkFile (lit "attachments/img.png") ext)
          (lit "attachments/") = true
        /\ decide (mkContext (mkFile (lit "attachments/img.png") ext) fileCache)
             (mkSettings [lit "attachments/"] fmRules) = Returned true)
  /\ (forall ext fileCache,
        pathRuleMatches (mkFile (lit "notes/attachments/img.png") ext)
          (lit "attachments/") = false
        /\ decide
             (mkContext (mkFile (lit "notes/attachments/img.png") ext) fileCache)
             (mkSettings [lit "attachments/"] []) = Returned false).
Proof.
  split; [|split].
  - intros file entry Hends.
    assert (Heq : pathRuleMatches file entry
                  = startsWith (path file) (trim entry)).
    { unfold pathRuleMatches. cbv zeta.
      rewrite (endsWith_nonempty _ _ Hends eq_refl). now rewrite Hends. }
    split; [exact Heq|]. rewrite Heq. apply startsWith_prefix.
  - intros ext fileCache fmRules. split; [reflexivity|].
    rewrite decide_eq. reflexivity.
  - intros ext fileCache. split; [reflexivity|].
    rewrite decide_eq. cbn [collapseFrontmatterRules].
    now rewrite frontmatterMatches_nil.
Qed.

(** C4: an entry whose trimmed text does not end with [/] and starts with
    [.] matches a file exactly when the file's extension is the trimmed
    entry without its first code unit; [.pdf] matches the extension [pdf]
    and does not match [PDF]. *)
Theorem extension_rule_is_exact_match :
  (forall (file : TFile) (entry : jsstring),
     endsWith (trim entry) (lit "/") = false ->
     startsWith (trim entry) (lit ".") = true ->
     pathRuleMatches file entry
       = strictEq (extension file) (substring 1 (trim entry))
     /\ (pathRuleMatches file entry = true <->
         trim entry = lit "." ++ extension file))
  /\ (forall p fileCache fmRules,
        pathRuleMatches (mkFile p (lit "pdf")) (lit ".pdf") = true
        /\ decide (mkContext (mkFile p (lit "pdf")) fileCache)
             (mkSettings [lit ".pdf"] fmRules) = Returned true)
  /\ (forall p fileCache,
        pathRuleMatches (mkFile p (lit "PDF")) (lit ".pdf") = false
        /\ decide (mkContext (mkFile p (lit "PDF")) fileCache)
             (mkSettings [lit ".pdf"] []) = Returned false).
Proof.
  split; [|split].
  - intros file entry Hends Hdot.
    assert (Heq : pathRuleMatches file entry
                  = strictEq (extension file) (substring 1 (trim entry))).
    { unfold pathRuleMatches. cbv zeta. rewrite Hends, Hdot.
      destruct (trim entry); [discriminate Hdot | reflexivity]. }
    split; [exact Heq|]. rewrite Heq, strictEq_true.
    apply startsWith_prefix in Hdot as [rest Hrest]. rewrite Hrest.
    cbn. split; [intros ->; reflexivity | intros H; now injection H].
  - intros p fileCache fmRules. split; [reflexivity|].
    rewrite decide_eq. reflexivity.
  - intros p fileCache. split; [reflexivity|].
    rewrite decide_eq. cbn [collapseFrontmatterRules].
    now rewrite frontmatterMatches_nil.
Qed.

(** C6: an entry that is made of whitespace only, that is empty once
    trimmed, or whose trimmed text neither ends with [/] nor starts with
    [.], matches no file, and the decision is the one taken without the
    entry.  The callback is a total function: there is no error to raise. *)
Theorem inert_path_rule_is_ignored (entry : jsstring) :
  forallb isWhiteSpace entry = true
  \/ isEmpty (trim entry) = true
  \/ (endsWith (trim entry) (lit "/") = false
      /\ startsWith (trim entry) (lit ".") = false) ->
  (forall file : TFile, pathRuleMatches file entry = false)
  /\ (forall (ctx : FileContext) (before after : list jsstring)
         (fmRules : list FrontmatterRule),
        decide ctx (mkSettings (before ++ entry :: after) fmRules)
        = decide ctx (mkSettings (before ++ after) fmRules)).
Proof.
  intros H.
  assert (Hinert : forall file, pathRuleMatches file entry = false).
  { intros file. apply pathRuleMatches_inert.
    destruct H as [H | [H | H]]; [left | now left | now right].
    now rewrite (trim_blank _ H). }
  split; [exact Hinert|].
  intros ctx before after fmRules. rewrite !decide_eq.
  cbn [collapsePaths collapseFrontmatterRules].
  rewrite !existsb_app. cbn [existsb]. now rewrite Hinert.
Qed.

(** ** Frontmatter rules *)

(** C5: the code does not test the rule as the claim has it.  A rule whose
    key names a member of [Object.prototype] matches a frontmatter that does
    not hold the key: with frontmatter [title: x] the rule [constructor] =
    [function Object() { [native code] }] matches and the sidebar collapses.
    And a value that cannot be converted to a string gives no answer at all:
    with [hideside] holding a mapping with a key [toString], the rule
    [hideside] = [true] throws, and so does the handler. *)
Theorem frontmatter_rule_beyond_own_keys (file : TFile) :
  ({[ lit "title" := JString (lit "x") ]} : gmap jsstring JsValue)
    !! lit "constructor" = None
  /\ frontmatterRuleMatches {[ lit "title" := JString (lit "x") ]}
       (mkRule (lit "constructor") (lit "function Object() { [native code] }"))
     = Returned true
  /\ decide
       (mkContext file
          (Some (mkCache (Some {[ lit "title" := JString (lit "x") ]}))))
       (mkSettings []
          [mkRule (lit "constructor")
             (lit "function Object() { [native code] }")])
     = Returned true
  /\ frontmatterRuleMatches
       {[ lit "hideside" := JObject [(lit "toString", JString (lit "x"))] ]}
       (mkRule (lit "hideside") (lit "true"))
     = Thrown
  /\ decide
       (mkContext file
          (Some (mkCache
                   (Some {[ lit "hideside" :=
                              JObject [(lit "toString", JString (lit "x"))] ]}))))
       (mkSettings [] [mkRule (lit "hideside") (lit "true")])
     = Thrown.
Proof.
  split; [reflexivity|].
  assert (H1 : frontmatterRuleMatches {[ lit "title" := JString (lit "x") ]}
                 (mkRule (lit "constructor")
                    (lit "function Object() { [native code] }"))
               = Returned true) by reflexivity.
  assert (H2 : frontmatterRuleMatches
                 {[ lit "hideside" :=
                      JObject [(lit "toString", JString (lit "x"))] ]}
                 (mkRule (lit "hideside") (lit "true"))
               = Thrown) by reflexivity.
  split; [exact H1|]. split; [|split; [exact H2|]].
  - rewrite decide_eq.
    cbn [collapsePaths collapseFrontmatterRules existsb frontmatterMatches
         ctx_fileCache ctx_frontmatter frontmatter Array_some].
    now rewrite H1.
  - rewrite decide_eq.
    cbn [collapsePaths collapseFrontmatterRules existsb frontmatterMatches
         ctx_fileCache ctx_frontmatter frontmatter Array_some].
    now rewrite H2.
Qed.

(** C7: the order of the frontmatter rules can change what the handler does.
    With the frontmatter [a: v] and [b] a mapping with a key [toString], the
    rules [a] = [v], [b] = [z] collapse the sidebar, [some] stopping at the
    first; in the other order the rule on [b] is tried first and its
    conversion throws. *)
Theorem rule_order_changes_outcome (file : TFile) :
  Permutation
    [mkRule (lit "a") (lit "v"); mkRule (lit "b") (lit "z")]
    [mkRule (lit "b") (lit "z"); mkRule (lit "a") (lit "v")]
  /\ decide
       (mkContext file
          (Some (mkCache
                   (Some (<[ lit "a" := JString (lit "v") ]>
                            {[ lit "b" :=
                                 JObject [(lit "toString", JString (lit "x"))] ]})))))
       (mkSettings [] [mkRule (lit "a") (lit "v"); mkRule (lit "b") (lit "z")])
     = Returned true
  /\ decide
       (mkContext file
          (Some (mkCache
                   (Some (<[ lit "a" := JString (lit "v") ]>
                            {[ lit "b" :=
                                 JObject [(lit "toString", JString (lit "x"))] ]})))))
       (mkSettings [] [mkRule (lit "b") (lit "z"); mkRule (lit "a") (lit "v")])
     = Thrown.
Proof.
  split; [apply perm_swap|].
  assert (Ha : frontmatterRuleMatches
                 (<[ lit "a" := JString (lit "v") ]>
                    {[ lit "b" := JObject [(lit "toString", JString (lit "x"))] ]})
                 (mkRule (lit "a") (lit "v")) = Returned true) by reflexivity.
  assert (Hb : frontmatterRuleMatches
                 (<[ lit "a" := JString (lit "v") ]>
                    {[ lit "b" := JObject [(lit "toString", JString (lit "x"))] ]})
                 (mkRule (lit "b") (lit "z")) = Thrown) by reflexivity.
  split; rewrite decide_eq;
    cbn [collapsePaths collapseFrontmatterRules existsb frontmatterMatches
         ctx_fileCache ctx_frontmatter frontmatter Array_some].
  - now rewrite Ha.
  - now rewrite Hb.
Qed.

(** C10: a key that the frontmatter does not hold can still read as
    defined.  With frontmatter [title: x], which holds neither [__proto__]
    nor [toString], the rule [__proto__] = [[object Object]] and the rule
    [toString] = [function toString() { [native code] }] both match and
    collapse the sidebar; the test for definedness stops only the keys that
    [Object.prototype] does not have either, such as [hideside]. *)
Theorem absent_key_matches_inherited_member (file : TFile) :
  ({[ lit "title" := JString (lit "x") ]} : gmap jsstring JsValue)
    !! lit "__proto__" = None
  /\ ({[ lit "title" := JString (lit "x") ]} : gmap jsstring JsValue)
       !! lit "toString" = None
  /\ decide
       (mkContext file
          (Some (mkCache (Some {[ lit "title" := JString (lit "x") ]}))))
       (mkSettings [] [mkRule (lit "__proto__") (lit "[object Object]")])
     = Returned true
  /\ decide
       (mkContext file
          (Some (mkCache (Some {[ lit "title" := JString (lit "x") ]}))))
       (mkSettings []
          [mkRule (lit "toString")
             (lit "function toString() { [native code] }")])
     = Returned true
  /\ decide
       (mkContext file
          (Some (mkCache (Some {[ lit "title" := JString (lit "x") ]}))))
       (mkSettings [] [mkRule (lit "hideside") (lit "undefined")])
     = Returned false.
Proof.
  split; [reflexivity|]. split; [reflexivity|].
  assert (H1 : frontmatterRuleMatches {[ lit "title" := JString (lit "x") ]}
                 (mkRule (lit "__proto__") (lit "[object Object]"))
               = Returned true) by reflexivity.
  assert (H2 : frontmatterRuleMatches {[ lit "title" := JString (lit "x") ]}
                 (mkRule (lit "toString")
                    (lit "function toString() { [native code] }"))
               = Returned true) by reflexivity.
  assert (H3 : frontmatterRuleMatches {[ lit "title" := JString (lit "x") ]}
                 (mkRule (lit "hideside") (lit "undefined"))
               = Returned false) by reflexivity.
  split; [|split]; rewrite decide_eq;
    cbn [collapsePaths collapseFrontmatterRules existsb frontmatterMatches
         ctx_fileCache ctx_frontmatter frontmatter Array_some].
  - now rewrite H1.
  - now rewrite H2.
  - now rewrite H3.
Qed.

(** ** More on trimming *)

Lemma trimStart_blank_app (pre s : jsstring) :
  forallb isWhiteSpace pre = true -> trimStart (pre ++ s) = trimStart s.
Proof.
  induction pre as [|c pre IH]; simpl; [reflexivity|].
  rewrite andb_true_iff. intros [-> H]. now apply IH.
Qed.

Lemma trimStart_nil_blank (s : jsstring) :
  trimStart s = [] -> forallb isWhiteSpace s = true.
Proof.
  induction s as [|c s IH]; simpl; [reflexivity|].
  destruct (isWhiteSpace c); [exact IH | discriminate].
Qed.

Lemma trimStart_app_kept (s t : jsstring) :
  trimStart s <> [] -> trimStart (s ++ t) = trimStart s ++ t.
Proof.
  induction s as [|c s IH]; simpl; [congruence|].
  destruct (isWhiteSpace c); [exact IH | reflexivity].
Qed.

Lemma forallb_rev_true {A} (f : A -> bool) (l : list A) :
  forallb f l = true -> forallb f (rev l) = true.
Proof.
  rewrite !forallb_forall. intros H x Hx. apply H. now apply in_rev.
Qed.

Lemma trimEnd_app_blank (s post : jsstring) :
  forallb isWhiteSpace post = true -> trimEnd (s ++ post) = trimEnd s.
Proof.
  intros H. unfold trimEnd. rewrite rev_app_distr.
  now rewrite trimStart_blank_app by now apply forallb_rev_true.
Qed.

Lemma trim_surrounded (pre s post : jsstring) :
  forallb isWhiteSpace pre = true ->
  forallb isWhiteSpace post = true ->
  trim (pre ++ s ++ post) = trim s.
Proof.
  intros Hpre Hpost. unfold trim. rewrite (trimStart_blank_app _ _ Hpre).
  destruct (trimStart s) as [|c t] eqn:E.
  - rewrite (trimStart_blank_app _ _ (trimStart_nil_blank _ E)).
    now rewrite (trimStart_blank _ Hpost).
  - rewrite trimStart_app_kept by (rewrite E; discriminate).
    rewrite E. now apply trimEnd_app_blank.
Qed.


(** ** More on the handler and the predicate *)

Lemma existsb_incl {A} (f : A -> bool) (l l' : list A) :
  incl l l' -> existsb f l = true -> existsb f l' = true.
Proof.
  intros Hincl. rewrite !existsb_exists. intros [x [Hx Hf]].
  exists x. split; [now apply Hincl | exact Hf].
Qed.

Lemma shouldCollapseSidebar_verdict (this : MyPlugin) (file : TFile)
    (s : AppState) :
  fst (shouldCollapseSidebar this file s) = verdict this file.
Proof.
  unfold verdict.
  destruct (existsb (pathRuleMatches file) (collapsePaths (settings this)))
    eqn:E.
  - now rewrite shouldCollapseSidebar_path by exact E.
  - now rewrite shouldCollapseSidebar_frontmatter by exact E.
Qed.

(** How the handler ends on a present file, from any state. *)
Lemma handleFileOpen_verdict (this : MyPlugin) (file : TFile) (s : AppState) :
  match verdict this file with
  | Returned b =>
      fst (handleFileOpen this (Some file) s) = Returned tt
      /\ leftSplit_collapsed (snd (handleFileOpen this (Some file) s)) = b
  | Thrown =>
      fst (handleFileOpen this (Some file) s) = Thrown
      /\ leftSplit_collapsed (snd (handleFileOpen this (Some file) s))
         = leftSplit_collapsed s
  end.
Proof.
  rewrite handleFileOpen_present. unfold verdict.
  destruct (_ && _) eqn:Hempty.
  - destruct (collapsePaths (settings this)); [|discriminate Hempty].
    destruct (collapseFrontmatterRules (settings this));
      [|discriminate Hempty].
    cbn [existsb]. rewrite frontmatterMatches_nil. now split.
  - destruct (existsb (pathRuleMatches file) (collapsePaths (settings this)));
      [now split|].
    destruct (frontmatterMatches _ _); now split.
Qed.

Lemma decide_verdict (ctx : FileContext) (rules : RuleSet) :
  decide ctx rules = verdict (pluginFor ctx rules) (ctx_file ctx).
Proof. now rewrite decide_eq. Qed.

(** X8: for a present file the handler either returns after exactly one
    call on the sidebar, its last call, with the sidebar collapsed exactly
    when that call is [collapse] and the metadata cache asked at most once
    before it; or it throws after asking the metadata cache, having made no
    call on the sidebar, which stays where it was. *)
Theorem handler_calls_sidebar_once_or_throws (this : MyPlugin) (file : TFile)
    (s : AppState) :
  (exists (b : bool) (lookups : list Call),
     handleFileOpen this (Some file) s
     = (Returned tt,
        {| leftSplit_collapsed := b;
           calls := calls s ++ lookups
                    ++ [if b then CallCollapse else CallExpand] |})
     /\ (lookups = [] \/ lookups = [CallGetFileCache file]))
  \/ handleFileOpen this (Some file) s
     = (Thrown, {| leftSplit_collapsed := leftSplit_collapsed s;
                   calls := calls s ++ [CallGetFileCache file] |}).
Proof.
  rewrite handleFileOpen_present.
  destruct (_ && _).
  - left. exists false, []. split; [reflexivity | now left].
  - destruct (existsb (pathRuleMatches file) (collapsePaths (settings this))).
    + left. exists true, []. split; [reflexivity | now left].
    + destruct (frontmatterMatches _ _) as [b|].
      * left. exists b, [CallGetFileCache file]. split; [reflexivity | now right].
      * now right.
Qed.

(** X9: whether the handler returns or throws does not depend on the state
    it starts from.  When it returns, neither does the sidebar it leaves, so
    that handling the same file a second time changes nothing; when it
    throws, the sidebar stays where it was. *)
Theorem handler_result_ignores_previous_state (this : MyPlugin) (file : TFile)
    (s1 s2 : AppState) :
  fst (handleFileOpen this (Some file) s1)
  = fst (handleFileOpen this (Some file) s2)
  /\ (fst (handleFileOpen this (Some file) s1) = Returned tt ->
      leftSplit_collapsed (snd (handleFileOpen this (Some file) s1))
      = leftSplit_collapsed (snd (handleFileOpen this (Some file) s2))
      /\ leftSplit_collapsed
           (snd (handleFileOpen this (Some file)
                   (snd (handleFileOpen this (Some file) s1))))
         = leftSplit_collapsed (snd (handleFileOpen this (Some file) s1)))
  /\ (fst (handleFileOpen this (Some file) s1) = Thrown ->
      leftSplit_collapsed (snd (handleFileOpen this (Some file) s1))
      = leftSplit_collapsed s1).
Proof.
  pose proof (handleFileOpen_verdict this file s1) as H1.
  pose proof (handleFileOpen_verdict this file s2) as H2.
  pose proof (handleFileOpen_verdict this file
                (snd (handleFileOpen this (Some file) s1))) as H3.
  destruct (verdict this file) as [b|].
  - destruct H1 as [E1 C1], H2 as [E2 C2], H3 as [_ C3].
    rewrite E1, E2. split; [reflexivity|]. split; [|discriminate].
    intros _. now rewrite C1, C2, C3.
  - destruct H1 as [E1 C1], H2 as [E2 _].
    rewrite E1, E2. split; [reflexivity|]. split; [discriminate|].
    intros _. exact C1.
Qed.

(** X10: when [shouldCollapseSidebar] returns, the handler returns and
    leaves the sidebar as the predicate said, for every plugin; when the
    predicate throws, the handler throws and the sidebar stays where it was.
    On empty rule lists the predicate returns false by itself, so the
    handler's early branch changes no outcome. *)
Theorem predicate_is_the_decision (this : MyPlugin) (file : TFile)
    (s : AppState) :
  (forall b : bool,
     fst (shouldCollapseSidebar this file s) = Returned b ->
     fst (handleFileOpen this (Some file) s) = Returned tt
     /\ leftSplit_collapsed (snd (handleFileOpen this (Some file) s)) = b)
  /\ (fst (shouldCollapseSidebar this file s) = Thrown ->
      fst (handleFileOpen this (Some file) s) = Thrown
      /\ leftSplit_collapsed (snd (handleFileOpen this (Some file) s))
         = leftSplit_collapsed s)
  /\ (collapsePaths (settings this) = [] ->
      collapseFrontmatterRules (settings this) = [] ->
      fst (shouldCollapseSidebar this file s) = Returned false).
Proof.
  rewrite shouldCollapseSidebar_verdict.
  pose proof (handleFileOpen_verdict this file s) as H.
  split; [|split].
  - intros b Hb. now rewrite Hb in H.
  - intros Hb. now rewrite Hb in H.
  - intros Hp Hf. unfold verdict. rewrite Hp, Hf. cbn [existsb].
    apply frontmatterMatches_nil.
Qed.

(** X11: [shouldCollapseSidebar] never touches the sidebar, and it asks the
    metadata cache once, for the file at hand, exactly when no path rule
    matches. *)
Theorem predicate_leaves_sidebar_alone (this : MyPlugin) (file : TFile)
    (s : AppState) :
  leftSplit_collapsed (snd (shouldCollapseSidebar this file s))
  = leftSplit_collapsed s
  /\ calls (snd (shouldCollapseSidebar this file s))
     = calls s
       ++ (if existsb (pathRuleMatches file) (collapsePaths (settings this))
           then [] else [CallGetFileCache file]).
Proof.
  destruct (existsb (pathRuleMatches file) (collapsePaths (settings this)))
    eqn:E.
  - rewrite shouldCollapseSidebar_path by exact E.
    split; [reflexivity | now rewrite app_nil_r].
  - rewrite shouldCollapseSidebar_frontmatter by exact E. now split.
Qed.

(** ** More on the rules *)

Lemma frontmatterRuleMatches_trimmedText (fm : gmap jsstring JsValue)
    (rule : FrontmatterRule) :
  frontmatterRuleMatches fm rule
  = match trimmedText (Get fm (key rule)) with
    | None => Returned false
    | Some Thrown => Thrown
    | Some (Returned text) => Returned (strictEq text (trim (value rule)))
    end.
Proof.
  unfold frontmatterRuleMatches, trimmedText. cbv zeta.
  destruct (isDefined (Get fm (key rule))); [|reflexivity].
  now destruct (String_ (Get fm (key rule))).
Qed.

(** X6: whitespace around a path entry, around the value of a frontmatter
    rule and around a string value of the frontmatter is ignored; a line of
    the text area that ends with a carriage return is a case of it. *)
Theorem surrounding_whitespace_is_ignored (pre post : jsstring) :
  forallb isWhiteSpace pre = true ->
  forallb isWhiteSpace post = true ->
  (forall (file : TFile) (entry : jsstring),
     pathRuleMatches file (pre ++ entry ++ post) = pathRuleMatches file entry)
  /\ (forall (fm : gmap jsstring JsValue) (k v : jsstring),
        frontmatterRuleMatches fm (mkRule k (pre ++ v ++ post))
        = frontmatterRuleMatches fm (mkRule k v))
  /\ (forall (fm : gmap jsstring JsValue) (k v : jsstring)
         (rule : FrontmatterRule),
        frontmatterRuleMatches (<[k := JString (pre ++ v ++ post)]> fm) rule
        = frontmatterRuleMatches (<[k := JString v]> fm) rule).
Proof.
  intros Hpre Hpost. split; [|split].
  - intros file entry. unfold pathRuleMatches.
    now rewrite (trim_surrounded _ _ _ Hpre Hpost).
  - intros fm k v. unfold frontmatterRuleMatches. cbn [key value].
    now rewrite (trim_surrounded _ _ _ Hpre Hpost).
  - intros fm k v rule. unfold frontmatterRuleMatches, Get.
    destruct (stdpp.base.decide (k = key rule)) as [->|Hne].
    + rewrite !lookup_insert_eq. cbn [isDefined String_ ToString].
      now rewrite (trim_surrounded _ _ _ Hpre Hpost).
    + now rewrite !lookup_insert_ne by exact Hne.
Qed.

(** X7: rules never add a reason to expand: a file that collapses the
    sidebar under some rules is never decided to expand under rules that
    include them.  It still collapses there unless the conversion of a value
    throws; where no rule of the larger list throws on the file's
    frontmatter, it collapses. *)
Theorem more_rules_never_expand (ctx : FileContext)
    (paths paths' : list jsstring) (fmRules fmRules' : list FrontmatterRule) :
  incl paths paths' ->
  incl fmRules fmRules' ->
  decide ctx (mkSettings paths fmRules) = Returned true ->
  decide ctx (mkSettings paths' fmRules') <> Returned false
  /\ ((forall fm, ctx_frontmatter (ctx_fileCache ctx) = Some fm ->
       forall rule, In rule fmRules' -> frontmatterRuleMatches fm rule <> Thrown) ->
      decide ctx (mkSettings paths' fmRules') = Returned true).
Proof.
  intros Hp Hf. rewrite !decide_eq.
  cbn [collapsePaths collapseFrontmatterRules]. intros H.
  assert (Hno : (if existsb (pathRuleMatches (ctx_file ctx)) paths'
                 then Returned true
                 else frontmatterMatches (ctx_fileCache ctx) fmRules')
                <> Returned false).
  { destruct (existsb (pathRuleMatches (ctx_file ctx)) paths) eqn:E.
    - now rewrite (existsb_incl _ _ _ Hp E).
    - destruct (existsb (pathRuleMatches (ctx_file ctx)) paths');
        [discriminate|].
      unfold frontmatterMatches in *.
      destruct (ctx_frontmatter _) as [fm|]; [|discriminate H].
      apply Array_some_true in H as [rule [Hin Hm]].
      intros Hfalse. rewrite Array_some_false in Hfalse.
      specialize (Hfalse rule (Hf rule Hin)). congruence. }
  split; [exact Hno|]. intros Hsafe.
  destruct (existsb (pathRuleMatches (ctx_file ctx)) paths'); [reflexivity|].
  unfold frontmatterMatches in *.
  destruct (ctx_frontmatter _) as [fm|]; [|congruence].
  rewrite (Array_some_existsb _ _ (Hsafe fm eq_refl)) in *.
  destruct (existsb _ fmRules'); [reflexivity | congruence].
Qed.

(** X12: of the frontmatter, the decision reads only the keys the rules
    name, and of what they read only whether it is defined and, if so, its
    trimmed text or the failure to convert it: two frontmatters that agree
    there give the same decision, and throw alike, whatever else they hold
    and whatever the types of the values. *)
Theorem decision_reads_only_rule_keys (file : TFile) (rules : RuleSet)
    (fm fm' : gmap jsstring JsValue) :
  (forall rule, In rule (collapseFrontmatterRules rules) ->
     trimmedText (Get fm (key rule)) = trimmedText (Get fm' (key rule))) ->
  decide (mkContext file (Some (mkCache (Some fm)))) rules
  = decide (mkContext file (Some (mkCache (Some fm')))) rules.
Proof.
  intros H. rewrite !decide_eq. cbn [ctx_file].
  destruct (existsb _ _); [reflexivity|].
  cbn [frontmatterMatches ctx_fileCache ctx_frontmatter frontmatter].
  apply Array_some_ext_in. intros rule Hin.
  now rewrite !frontmatterRuleMatches_trimmedText, (H rule Hin).
Qed.

Lemma frontmatterRuleMatches_own (fm : gmap jsstring JsValue)
    (rule : FrontmatterRule) :
  ObjectPrototype_get (key rule) = RUndefined ->
  frontmatterRuleMatches fm rule = Returned true <->
  exists v text, fm !! key rule = Some v
                 /\ ToString v = Returned text
                 /\ trim text = trim (value rule).
Proof.
  intros Hproto. unfold frontmatterRuleMatches, Get. cbv zeta.
  destruct (fm !! key rule) as [v|].
  - cbn [isDefined String_]. destruct (ToString v) as [text|] eqn:Ev.
    + split.
      * intros H. injection H as H. apply strictEq_true in H.
        exists v, text. repeat split; [exact Ev | exact H].
      * intros [w [text' [Hw [Ht Heq]]]]. injection Hw as <-.
        rewrite Ev in Ht. injection Ht as <-. f_equal. now apply strictEq_true.
    + split; [discriminate | intros [w [text' [Hw [Ht _]]]]].
      injection Hw as <-. rewrite Ev in Ht. discriminate Ht.
  - rewrite Hproto. cbn [isDefined].
    split; [discriminate | intros [w [text' [Hw _]]]; discriminate].
Qed.

(** X13: after a first start, with no data file, the settings are the
    defaults, and the sidebar collapses exactly for the files whose
    frontmatter holds [hideside] with a value whose trimmed text is
    [true]. *)
Theorem fresh_install_collapses_on_hideside (ctx : FileContext) :
  onload None = Some {| st_settings := DEFAULT_SETTINGS; st_data := None |}
  /\ (decide ctx DEFAULT_SETTINGS = Returned true <->
      exists fm v text,
        ctx_frontmatter (ctx_fileCache ctx) = Some fm
        /\ fm !! lit "hideside" = Some v
        /\ ToString v = Returned text
        /\ trim text = lit "true").
Proof.
  split; [reflexivity|]. rewrite decide_eq.
  cbn [DEFAULT_SETTINGS collapsePaths collapseFrontmatterRules existsb].
  unfold frontmatterMatches.
  destruct (ctx_frontmatter (ctx_fileCache ctx)) as [fm|].
  - cbn [Array_some].
    pose proof (frontmatterRuleMatches_own fm
                  (mkRule (lit "hideside") (lit "true")) eq_refl) as Hown.
    cbn [key value] in Hown.
    destruct (frontmatterRuleMatches fm (mkRule (lit "hideside") (lit "true")))
      as [[|]|].
    + split; [intros _ | reflexivity].
      destruct (proj1 Hown eq_refl) as [v [text [Hv [Ht Heq]]]].
      now exists fm, v, text.
    + split; [discriminate|]. intros [fm' [v [text [Hfm [Hv [Ht Heq]]]]]].
      injection Hfm as <-. apply Hown. now exists v, text.
    + split; [discriminate|]. intros [fm' [v [text [Hfm [Hv [Ht Heq]]]]]].
      injection Hfm as <-. apply Hown. now exists v, text.
  - split; [discriminate | intros [fm [v [text [Hfm _]]]]; discriminate].
Qed.

(** X17: a folder rule covers what lies below the folder: when it matches a
    path it matches every path that extends it, whatever the extension. *)
Theorem folder_rule_covers_subfolders (entry p q ext ext' : jsstring) :
  endsWith (trim entry) (lit "/") = true ->
  pathRuleMatches (mkFile p ext) entry = true ->
  pathRuleMatches (mkFile (p ++ q) ext') entry = true.
Proof.
  intros Hends. unfold pathRuleMatches. cbv zeta.
  rewrite (endsWith_nonempty _ _ Hends eq_refl), Hends. cbn [path].
  rewrite !startsWith_prefix. intros [rest ->].
  exists (rest ++ q). now rewrite app_assoc.
Qed.

(** X19: for a rule whose key is not the name of a member of
    [Object.prototype], the rule matches a present frontmatter exactly when
    the frontmatter holds the key and the stored value converts to a string
    whose trimmed text is the trimmed value of the rule.  When no path rule
    matches, the decision is what [some] gives over the frontmatter rules,
    and it is to expand when the file has no frontmatter.  With the single
    rule [hideside] = [true]: a frontmatter with [hideside: "true"] (or the
    boolean [true]) collapses, one with [hideside: "false"] expands, a file
    without frontmatter expands. *)
Theorem frontmatter_rule_on_own_keys :
  (forall (fm : gmap jsstring JsValue) (rule : FrontmatterRule),
     ObjectPrototype_get (key rule) = RUndefined ->
     frontmatterRuleMatches fm rule = Returned true <->
     exists v text, fm !! key rule = Some v
                    /\ ToString v = Returned text
                    /\ trim text = trim (value rule))
  /\ (forall (ctx : FileContext) (rules : RuleSet) (fm : gmap jsstring JsValue),
        existsb (pathRuleMatches (ctx_file ctx)) (collapsePaths rules) = false ->
        ctx_frontmatter (ctx_fileCache ctx) = Some fm ->
        decide ctx rules
        = Array_some (frontmatterRuleMatches fm) (collapseFrontmatterRules rules))
  /\ (forall (ctx : FileContext) (rules : RuleSet),
        existsb (pathRuleMatches (ctx_file ctx)) (collapsePaths rules) = false ->
        ctx_frontmatter (ctx_fileCache ctx) = None ->
        decide ctx rules = Returned false)
  /\ (forall file : TFile,
        decide
          (mkContext file
             (Some (mkCache
                      (Some {[ lit "hideside" := JString (lit "true") ]}))))
          (mkSettings [] [mkRule (lit "hideside") (lit "true")])
        = Returned true
        /\ decide
             (mkContext file
                (Some (mkCache (Some {[ lit "hideside" := JBool true ]}))))
             (mkSettings [] [mkRule (lit "hideside") (lit "true")])
           = Returned true
        /\ decide
             (mkContext file
                (Some (mkCache
                         (Some {[ lit "hideside" := JString (lit "false") ]}))))
             (mkSettings [] [mkRule (lit "hideside") (lit "true")])
           = Returned false
        /\ decide (mkContext file (Some (mkCache None)))
             (mkSettings [] [mkRule (lit "hideside") (lit "true")])
           = Returned false
        /\ decide (mkContext file None)
             (mkSettings [] [mkRule (lit "hideside") (lit "true")])
           = Returned false).
Proof.
  split; [exact frontmatterRuleMatches_own|]. split; [|split].
  - intros ctx rules fm Hpath Hfm. rewrite decide_eq, Hpath.
    unfold frontmatterMatches. now rewrite Hfm.
  - intros ctx rules Hpath Hfm. rewrite decide_eq, Hpath.
    unfold frontmatterMatches. now rewrite Hfm.
  - intros file. rewrite !decide_eq.
    cbn [collapsePaths collapseFrontmatterRules existsb ctx_fileCache
         frontmatterMatches ctx_frontmatter frontmatter Array_some].
    unfold frontmatterRuleMatches, Get. cbn [key value].
    rewrite !lookup_singleton_eq. repeat split; reflexivity.
Qed.

(** X20: when the frontmatter is present, does not hold the key of a rule,
    and the key is not the name of a member of [Object.prototype], the rule
    does not match whatever its value is.  The property read gives
    [undefined], whose conversion to a string would be the text
    [undefined]: it is the test for definedness that makes the rule with
    that very value fail. *)
Theorem absent_plain_key_never_matches (fm : gmap jsstring JsValue)
    (k : jsstring) :
  fm !! k = None ->
  ObjectPrototype_get k = RUndefined ->
  (forall v : jsstring, frontmatterRuleMatches fm (mkRule k v) = Returned false)
  /\ isDefined (Get fm k) = false
  /\ String_ (Get fm k) = Returned (lit "undefined")
  /\ (forall (file : TFile) (paths : list jsstring) (v : jsstring),
        existsb (pathRuleMatches file) paths = false ->
        decide (mkContext file (Some (mkCache (Some fm))))
          (mkSettings paths [mkRule k v]) = Returned false).
Proof.
  intros Hk Hproto.
  assert (Hget : Get fm k = RUndefined) by (unfold Get; now rewrite Hk).
  assert (Hno : forall v, frontmatterRuleMatches fm (mkRule k v) = Returned false).
  { intros v. unfold frontmatterRuleMatches. cbn [key]. now rewrite Hget. }
  split; [exact Hno|]. rewrite Hget. split; [reflexivity|]. split; [reflexivity|].
  intros file paths v Hpath. rewrite decide_eq.
  cbn [ctx_file collapsePaths]. rewrite Hpath.
  cbn [frontmatterMatches ctx_fileCache ctx_frontmatter frontmatter
       collapseFrontmatterRules Array_some].
  now rewrite Hno.
Qed.

(** X21: the order of the path rules never matters.  The order of the
    frontmatter rules does not matter either for a file on whose frontmatter
    no rule throws, or that has no frontmatter. *)
Theorem rule_order_is_irrelevant_when_values_convert (ctx : FileContext)
    (paths paths' : list jsstring) (fmRules fmRules' : list FrontmatterRule) :
  Permutation paths paths' ->
  Permutation fmRules fmRules' ->
  decide ctx (mkSettings paths fmRules) = decide ctx (mkSettings paths' fmRules)
  /\ ((forall fm, ctx_frontmatter (ctx_fileCache ctx) = Some fm ->
       forall rule, In rule fmRules -> frontmatterRuleMatches fm rule <> Thrown) ->
      decide ctx (mkSettings paths fmRules)
      = decide ctx (mkSettings paths' fmRules')).
Proof.
  intros Hp Hf. rewrite !decide_eq.
  cbn [collapsePaths collapseFrontmatterRules].
  rewrite (existsb_Permutation _ _ _ Hp). split; [reflexivity|].
  intros Hsafe. destruct (existsb _ paths'); [reflexivity|].
  unfold frontmatterMatches.
  destruct (ctx_frontmatter _) as [fm|]; [|reflexivity].
  rewrite (Array_some_existsb _ fmRules (Hsafe fm eq_refl)).
  rewrite (Array_some_existsb _ fmRules').
  - f_equal. now apply existsb_Permutation.
  - intros rule Hin. apply (Hsafe fm eq_refl).
    apply (Permutation_in _ (Permutation_sym Hf) Hin).
Qed.

(** ** The settings tab and the decision *)

Lemma splitOn_nonempty (sep : N) (s : jsstring) : splitOn sep s <> [].
Proof.
  destruct s as [|c s]; simpl; [discriminate|].
  destruct (c =? sep); [discriminate|].
  destruct (splitOn sep s); discriminate.
Qed.

(** X5: an edit of the text area never stores an empty list of paths: the
    cleared text area stores the list of one empty entry.  From then on the
    handler's early branch on empty settings is out of reach: on a present
    file it either collapses on a path rule, or asks the metadata cache and
    then collapses, expands or, when a conversion throws, does neither. *)
Theorem edited_paths_are_never_empty (value : jsstring) (st : MyPluginSettings) :
  collapsePaths (mutate (PathsChanged value) st) <> []
  /\ collapsePaths (mutate (PathsChanged []) st) = [[]]
  /\ forall ctx : FileContext,
       calls (run ctx (mutate (PathsChanged value) st))
       = if existsb (pathRuleMatches (ctx_file ctx)) (splitOn newline value)
         then [CallCollapse]
         else CallGetFileCache (ctx_file ctx)
              :: match decide ctx (mutate (PathsChanged value) st) with
                 | Returned true => [CallCollapse]
                 | Returned false => [CallExpand]
                 | Thrown => []
                 end.
Proof.
  split; [apply splitOn_nonempty|]. split; [reflexivity|].
  intros ctx. rewrite decide_eq. unfold run. rewrite handleFileOpen_present.
  cbn [mutate pluginFor settings collapsePaths collapseFrontmatterRules
       metadataCache].
  destruct (splitOn newline value) as [|p ps] eqn:Hs;
    [now apply splitOn_nonempty in Hs|].
  cbn [length Nat.eqb andb].
  destruct (existsb (pathRuleMatches (ctx_file ctx)) (p :: ps));
    [reflexivity|].
  now destruct (frontmatterMatches _ _) as [[|]|].
Qed.

Lemma Array_some_delete {A} (f : A -> Outcome bool) (i : nat) (l : list A)
    (x : A) :
  l !! i = Some x -> f x = Returned false ->
  Array_some f (delete i l) = Array_some f l.
Proof.
  revert i; induction l as [|y l IH]; intros [|i] H Hx; try discriminate H.
  - injection H as ->. cbn [Array_some]. now rewrite Hx.
  - cbn in H.
    change (Array_some f (y :: delete i l) = Array_some f (y :: l)).
    cbn [Array_some]. now rewrite (IH i H Hx).
Qed.

Lemma In_delete {A} (i : nat) (l : list A) (x : A) :
  In x (delete i l) -> In x l.
Proof.
  revert i; induction l as [|y l IH]; intros [|i] H; try easy.
  - now right.
  - change (In x (y :: delete i l)) in H.
    destruct H as [<-|H]; [now left | right; now apply (IH i)].
Qed.

(** X14: deleting the rule of a row keeps a decision to expand, and it
    changes nothing at all for a file on which the deleted rule returned
    false: the decision, or the exception, is the one from before. *)
Theorem deleting_an_inert_rule_changes_nothing (ctx : FileContext)
    (st : MyPluginSettings) (index : nat) (rule : FrontmatterRule) :
  collapseFrontmatterRules st !! index = Some rule ->
  (decide ctx st = Returned false ->
   decide ctx (mutate (DeleteClicked index) st) = Returned false)
  /\ (frontmatterMatches (ctx_fileCache ctx) [rule] = Returned false ->
      decide ctx (mutate (DeleteClicked index) st) = decide ctx st).
Proof.
  intros H. rewrite !decide_eq.
  cbn [mutate collapsePaths collapseFrontmatterRules].
  destruct (existsb _ _); [split; [discriminate | reflexivity]|].
  unfold frontmatterMatches.
  destruct (ctx_frontmatter _) as [fm|]; [|now split].
  split.
  - rewrite !Array_some_false. intros Hall x Hx. apply Hall.
    now apply In_delete in Hx.
  - cbn [Array_some]. intros Hrule. apply (Array_some_delete _ _ _ _ H).
    now destruct (frontmatterRuleMatches fm rule) as [[|]|].
Qed.

(** X15: the row added by the button holds the empty key and the empty
    value; it changes no decision for a file that has no frontmatter or whose
    frontmatter does not hold the empty key. *)
Theorem adding_a_blank_rule_changes_nothing (ctx : FileContext)
    (st : MyPluginSettings) :
  (forall fm, ctx_frontmatter (ctx_fileCache ctx) = Some fm ->
     fm !! ([] : jsstring) = None) ->
  decide ctx (mutate AddClicked st) = decide ctx st.
Proof.
  intros H. rewrite !decide_eq.
  cbn [mutate collapsePaths collapseFrontmatterRules].
  destruct (existsb _ _); [reflexivity|].
  unfold frontmatterMatches.
  destruct (ctx_frontmatter _) as [fm|]; [|reflexivity].
  assert (Hblank : frontmatterRuleMatches fm (mkRule [] []) = Returned false).
  { unfold frontmatterRuleMatches, Get. cbn [key]. now rewrite (H fm eq_refl). }
  rewrite Array_some_app. cbn [Array_some]. rewrite Hblank.
  now destruct (Array_some _ _) as [[|]|].
Qed.

(** ** The plugin at work *)

Lemma runEvents_opensNoFile (evs : list Event) (w : World) :
  forallb opensNoFile evs = true -> w_app (runEvents evs w) = w_app w.
Proof.
  revert w. induction evs as [|ev evs IH]; intros w; [reflexivity|].
  cbn [forallb]. rewrite andb_true_iff. intros [Hev Hevs].
  cbn [runEvents fold_left]. fold (runEvents evs (step w ev)).
  rewrite (IH _ Hevs).
  destruct ev as [[file|] cache | ev]; [discriminate Hev | reflexivity..].
Qed.

(** X18: when the handler returned for the file opened last, the sidebar
    shows the decision taken for that file, under the rules that were in
    force when it was opened and with the metadata the cache held then; when
    the handler threw on it, the sidebar is where it was before the file was
    opened.  What happens in the settings tab afterwards, and [null] files,
    leave the sidebar where it is: changed rules act from the next opened
    file on. *)
Theorem sidebar_follows_last_opened_file (before after : list Event)
    (file : TFile) (cache : TFile -> option CachedMetadata) (w : World) :
  forallb opensNoFile after = true ->
  (forall b : bool,
     decide (mkContext file (cache file))
       (st_settings (w_plugin (runEvents before w))) = Returned b ->
     leftSplit_collapsed
       (w_app (runEvents (before ++ FileOpened (Some file) cache :: after) w))
     = b)
  /\ (decide (mkContext file (cache file))
        (st_settings (w_plugin (runEvents before w))) = Thrown ->
      leftSplit_collapsed
        (w_app (runEvents (before ++ FileOpened (Some file) cache :: after) w))
      = leftSplit_collapsed (w_app (runEvents before w)))
  /\ w_app (runEvents after w) = w_app w.
Proof.
  intros Hafter.
  assert (Hrun : w_app (runEvents (before ++ FileOpened (Some file) cache :: after) w)
                 = snd (handleFileOpen
                          (mkPlugin (st_settings (w_plugin (runEvents before w)))
                             cache)
                          (Some file) (w_app (runEvents before w)))).
  { unfold runEvents at 1. rewrite fold_left_app. cbn [fold_left].
    fold (runEvents before w).
    fold (runEvents after
            (step (runEvents before w) (FileOpened (Some file) cache))).
    now rewrite (runEvents_opensNoFile _ _ Hafter). }
  rewrite Hrun, decide_verdict.
  pose proof (handleFileOpen_verdict
                (mkPlugin (st_settings (w_plugin (runEvents before w))) cache)
                file (w_app (runEvents before w))) as H.
  assert (Hv : verdict (pluginFor (mkContext file (cache file))
                          (st_settings (w_plugin (runEvents before w))))
                 (ctx_file (mkContext file (cache file)))
               = verdict (mkPlugin (st_settings (w_plugin (runEvents before w)))
                            cache) file) by reflexivity.
  rewrite Hv. split; [|split].
  - intros b Hb. rewrite Hb in H. apply H.
  - intros Hb. rewrite Hb in H. apply H.
  - now apply runEvents_opensNoFile.
Qed.

End Decider.

(** ** Loading the settings *)

(** C9: the documented defaults are no path rule and the single frontmatter
    rule [hideside] = [true]; loading gives the defaults when nothing was
    saved, and otherwise an object in which each saved field stands in place
    of the default one and each missing field keeps its default.  Either way
    the result holds both fields. *)
Theorem loadSettings_merges_over_defaults :
  DEFAULT_SETTINGS = mkSettings [] [mkRule (lit "hideside") (lit "true")]
  /\ loadSettings None = asObject DEFAULT_SETTINGS
  /\ (forall saved : PartialSettings,
        p_collapsePaths (loadSettings (Some saved))
        = Some (match p_collapsePaths saved with
                | Some paths => paths
                | None => collapsePaths DEFAULT_SETTINGS
                end)
        /\ p_collapseFrontmatterRules (loadSettings (Some saved))
           = Some (match p_collapseFrontmatterRules saved with
                   | Some rules => rules
                   | None => collapseFrontmatterRules DEFAULT_SETTINGS
                   end))
  /\ (forall loadData : option PartialSettings,
        exists loaded : MyPluginSettings, loadSettings loadData = asObject loaded).
Proof.
  split; [reflexivity|]. split; [reflexivity|]. split.
  - intros [[paths|] [rules|]]; split; reflexivity.
  - intros loadData.
    exists (mkSettings
              (default [] (loadData ≫= p_collapsePaths))
              (default (collapseFrontmatterRules DEFAULT_SETTINGS)
                 (loadData ≫= p_collapseFrontmatterRules))).
    now destruct loadData as [[[paths|] [rules|]]|].
Qed.

(** ** Saving, restarting and the settings tab *)

Lemma readSettings_saved (st : MyPluginSettings) :
  readSettings (loadSettings (saveSettings st)) = Some st.
Proof. now destruct st. Qed.

Lemma onload_after_event (ev : TabEvent) (ps : PluginState) :
  onload (st_data (onTabEvent ev ps)) = Some (onTabEvent ev ps).
Proof.
  unfold onload, onTabEvent. cbn [st_data]. now rewrite readSettings_saved.
Qed.

Lemma onload_st_data (data : DataFile) (ps : PluginState) :
  onload data = Some ps -> onload (st_data ps) = Some ps.
Proof.
  unfold onload. destruct (readSettings (loadSettings data)) as [st|] eqn:E;
    [|discriminate].
  intros H. injection H as <-. cbn [st_data]. now rewrite E.
Qed.

Lemma join_splitOn (sep : N) (s : jsstring) : join [sep] (splitOn sep s) = s.
Proof.
  induction s as [|c s IH]; [reflexivity|]. cbn [splitOn].
  destruct (splitOn sep s) as [|piece pieces] eqn:E;
    [now apply splitOn_nonempty in E|].
  destruct (c =? sep) eqn:Hc.
  - apply N.eqb_eq in Hc as ->.
    change (join [sep] ([] :: piece :: pieces))
      with (sep :: join [sep] (piece :: pieces)).
    now rewrite IH.
  - destruct pieces as [|piece' pieces].
    + cbn in IH |- *. now rewrite IH.
    + change (join [sep] ((c :: piece) :: piece' :: pieces))
        with (c :: join [sep] (piece :: piece' :: pieces)).
      now rewrite IH.
Qed.

Lemma splitOn_app_sep (sep : N) (e s : jsstring) :
  ~ In sep e -> splitOn sep (e ++ sep :: s) = e :: splitOn sep s.
Proof.
  induction e as [|c e IH]; intros Hnot.
  - cbn. now rewrite N.eqb_refl.
  - cbn [app splitOn]. rewrite IH by (intros H; apply Hnot; now right).
    destruct (c =? sep) eqn:Hc; [|reflexivity].
    apply N.eqb_eq in Hc. exfalso. apply Hnot. now left.
Qed.

Lemma splitOn_no_sep (sep : N) (e : jsstring) :
  ~ In sep e -> splitOn sep e = [e].
Proof.
  induction e as [|c e IH]; intros Hnot; [reflexivity|].
  cbn [splitOn]. rewrite IH by (intros H; apply Hnot; now right).
  destruct (c =? sep) eqn:Hc; [|reflexivity].
  apply N.eqb_eq in Hc. exfalso. apply Hnot. now left.
Qed.

Lemma splitOn_join (sep : N) (l : list jsstring) :
  l <> [] -> Forall (fun e => ~ In sep e) l -> splitOn sep (join [sep] l) = l.
Proof.
  destruct l as [|e l]; [congruence|]. intros _.
  revert e. induction l as [|e' l IH]; intros e Hall.
  - cbn [join]. apply splitOn_no_sep. now apply Forall_inv in Hall.
  - change (join [sep] (e :: e' :: l)) with (e ++ sep :: join [sep] (e' :: l)).
    rewrite splitOn_app_sep by now apply Forall_inv in Hall.
    f_equal. apply IH. now apply Forall_inv_tail in Hall.
Qed.

Lemma alter_last {A} (f : A -> A) (l : list A) (x : A) :
  alter f (length l) (l ++ [x]) = l ++ [f x].
Proof.
  induction l as [|y l IH]; [reflexivity|].
  change (y :: alter f (length l) (l ++ [x]) = y :: l ++ [f x]).
  now rewrite IH.
Qed.

Lemma delete_last {A} (l : list A) (x : A) : delete (length l) (l ++ [x]) = l.
Proof.
  induction l as [|y l IH]; [reflexivity|].
  change (y :: delete (length l) (l ++ [x]) = y :: l).
  now rewrite IH.
Qed.

Example splitOn_lines :
  splitOn newline (lit "attachments/" ++ [newline] ++ lit ".pdf")
  = [lit "attachments/"; lit ".pdf"]
  /\ splitOn newline [] = [[]]
  /\ splitOn newline [newline] = [[]; []]
  /\ splitOn newline (lit "a" ++ [newline]) = [lit "a"; []].
Proof. repeat split; reflexivity. Qed.

(** X1: what [saveSettings] writes is read back whole by the next start of
    the plugin: the settings in memory are then exactly the saved ones, none
    of the defaults comes back, an emptied rule list stays empty. *)
Theorem restart_restores_saved_settings (st : MyPluginSettings) :
  onload (saveSettings st)
  = Some {| st_settings := st; st_data := saveSettings st |}.
Proof. unfold onload. now rewrite readSettings_saved. Qed.

(** X2: the plugin always starts, whatever the data file holds of the two
    fields, and after any sequence of events of the settings tab a restart
    from the data file gives back the very state the plugin is in. *)
Theorem tab_session_is_persisted (data : DataFile) (evs : list TabEvent) :
  exists ps : PluginState,
    onload data = Some ps
    /\ onload (st_data (tabSession evs ps)) = Some (tabSession evs ps).
Proof.
  assert (Hstart : exists ps, onload data = Some ps).
  { unfold onload. destruct data as [[[paths|] [rules|]]|]; cbn; eauto. }
  destruct Hstart as [ps Hps]. exists ps. split; [exact Hps|].
  apply onload_st_data in Hps. clear data.
  revert ps Hps. induction evs as [|ev evs IH]; intros ps Hps; [exact Hps|].
  cbn [tabSession fold_left]. apply IH. apply onload_after_event.
Qed.

(** X3: after an edit of the text area, rendering the tab again fills the
    text area with exactly the text that was typed. *)
Theorem text_area_shows_what_was_typed (value : jsstring)
    (st : MyPluginSettings) :
  textAreaValue (mutate (PathsChanged value) st) = value.
Proof. unfold textAreaValue. cbn [mutate collapsePaths]. apply join_splitOn. Qed.

(** X4: handing the text area's own content back to its callback leaves the
    settings as they are, provided the list of paths is not empty and no
    entry holds a line feed. *)
Theorem unchanged_text_keeps_the_paths (st : MyPluginSettings) :
  collapsePaths st <> [] ->
  Forall (fun entry => ~ In newline entry) (collapsePaths st) ->
  mutate (PathsChanged (textAreaValue st)) st = st.
Proof.
  intros Hne Hall. destruct st as [paths rules]. unfold textAreaValue.
  cbn [mutate collapsePaths collapseFrontmatterRules] in *.
  now rewrite splitOn_join.
Qed.

(** X16: a row that is added and then filled in is the rule typed, at the end
    of the list and saved as such; a row that is added and then deleted
    leaves the settings as they were. *)
Theorem added_row_is_the_last_rule (ps : PluginState) (k v : jsstring) :
  st_settings
    (tabSession
       [AddClicked;
        KeyChanged (length (collapseFrontmatterRules (st_settings ps))) k;
        ValueChanged (length (collapseFrontmatterRules (st_settings ps))) v]
       ps)
  = mkSettings (collapsePaths (st_settings ps))
      (collapseFrontmatterRules (st_settings ps) ++ [mkRule k v])
  /\ st_settings
       (tabSession
          [AddClicked;
           DeleteClicked (length (collapseFrontmatterRules (st_settings ps)))]
          ps)
     = st_settings ps.
Proof.
  destruct ps as [[paths rules] data].
  cbn [tabSession fold_left onTabEvent st_settings mutate collapsePaths
       collapseFrontmatterRules].
  split.
  - now rewrite !alter_last.
  - now rewrite delete_last.
Qed.

(** ** Instances on concrete inputs *)

Import Examples.

Lemma path_rule_takes_precedence_witness :
  existsb (pathRuleMatches image) [lit " "; lit "attachments/"] = true
  /\ decide Integer_toString
       (mkContext image
          (Some (mkCache (Some {[ lit "hideside" := JString (lit "false") ]}))))
       (mkSettings [lit " "; lit "attachments/"] [hideside]) = Returned true.
Proof.
  split; [reflexivity|].
  exact (proj1 (path_rule_takes_precedence Integer_toString image
                  [lit " "; lit "attachments/"] eq_refl _ _)).
Defined.

Lemma folder_rule_is_prefix_match_witness :
  endsWith (trim (lit "  docs/ ")) (lit "/") = true
  /\ pathRuleMatches note (lit "  docs/ ")
     = startsWith (path note) (trim (lit "  docs/ ")).
Proof.
  split; [reflexivity|].
  exact (proj1 (proj1 (@folder_rule_is_prefix_match Z Integer_toString)
                  note (lit "  docs/ ") eq_refl)).
Defined.

Lemma extension_rule_is_exact_match_witness :
  endsWith (trim (lit ".canvas ")) (lit "/") = false
  /\ startsWith (trim (lit ".canvas ")) (lit ".") = true
  /\ pathRuleMatches board (lit ".canvas ")
     = strictEq (extension board) (substring 1 (trim (lit ".canvas "))).
Proof.
  split; [reflexivity|]. split; [reflexivity|].
  exact (proj1 (proj1 (@extension_rule_is_exact_match Z Integer_toString)
                  board (lit ".canvas ") eq_refl eq_refl)).
Defined.

Lemma inert_path_rule_is_ignored_witness :
  (endsWith (trim (lit "notes")) (lit "/") = false
   /\ startsWith (trim (lit "notes")) (lit ".") = false)
  /\ decide Integer_toString (mkContext note None)
       (mkSettings [lit "notes"] [hideside])
     = decide Integer_toString (mkContext note None) (mkSettings [] [hideside]).
Proof.
  split; [split; reflexivity|].
  exact (proj2 (inert_path_rule_is_ignored Integer_toString (lit "notes")
                  (or_intror (or_intror (conj eq_refl eq_refl))))
           (mkContext note None) [] [] [hideside]).
Defined.

Lemma unchanged_text_keeps_the_paths_witness :
  mutate
    (PathsChanged
       (textAreaValue (mkSettings [lit "attachments/"; lit ".pdf"] [hideside])))
    (mkSettings [lit "attachments/"; lit ".pdf"] [hideside])
  = mkSettings [lit "attachments/"; lit ".pdf"] [hideside].
Proof.
  refine (unchanged_text_keeps_the_paths
            (mkSettings [lit "attachments/"; lit ".pdf"] [hideside]) _ _).
  - discriminate.
  - repeat constructor; vm_compute; intuition discriminate.
Defined.

Lemma surrounding_whitespace_is_ignored_witness :
  pathRuleMatches image (lit " " ++ lit "attachments/" ++ [0x000D])
  = pathRuleMatches image (lit "attachments/").
Proof.
  exact (proj1 (@surrounding_whitespace_is_ignored Z Integer_toString
                  (lit " ") [0x000D] eq_refl eq_refl)
           image (lit "attachments/")).
Defined.

Lemma more_rules_never_expand_witness :
  decide Integer_toString
    (mkContext note
       (Some (mkCache (Some {[ lit "hideside" := JBool true ]}))))
    (mkSettings [lit "x/"] [kanban; hideside]) <> Returned false.
Proof.
  refine (proj1 (more_rules_never_expand Integer_toString
                   (mkContext note
                      (Some (mkCache (Some {[ lit "hideside" := JBool true ]}))))
                   [] [lit "x/"] [hideside] [kanban; hideside]
                   _ _ eq_refl)).
  - intros x [].
  - intros x [<-|[]]. right. now left.
Defined.

Lemma handler_result_ignores_previous_state_witness :
  leftSplit_collapsed
    (snd (handleFileOpen Integer_toString
            (mkPlugin (mkSettings [lit ".pdf"] []) (fun _ => None))
            (Some paper) (mkState false [])))
  = leftSplit_collapsed
      (snd (handleFileOpen Integer_toString
              (mkPlugin (mkSettings [lit ".pdf"] []) (fun _ => None))
              (Some paper) (mkState true [CallExpand]))).
Proof.
  exact (proj1 (proj1 (proj2 (handler_result_ignores_previous_state
                                Integer_toString
                                (mkPlugin (mkSettings [lit ".pdf"] [])
                                   (fun _ => None))
                                paper (mkState false [])
                                (mkState true [CallExpand])))
                  eq_refl)).
Defined.

Lemma predicate_is_the_decision_witness :
  fst (handleFileOpen Integer_toString
         (mkPlugin (mkSettings [] [hideside])
            (fun _ =>
               Some (mkCache
                       (Some {[ lit "hideside" :=
                                  JObject [(lit "toString", JNull)] ]}))))
         (Some note) (mkState true []))
  = Thrown
  /\ leftSplit_collapsed
       (snd (handleFileOpen Integer_toString
               (mkPlugin (mkSettings [] [hideside])
                  (fun _ =>
                     Some (mkCache
                             (Some {[ lit "hideside" :=
                                        JObject [(lit "toString", JNull)] ]}))))
               (Some note) (mkState true [])))
     = true.
Proof.
  exact (proj1 (proj2 (predicate_is_the_decision Integer_toString
                         (mkPlugin (mkSettings [] [hideside])
                            (fun _ =>
                               Some (mkCache
                                       (Some {[ lit "hideside" :=
                                                  JObject
                                                    [(lit "toString", JNull)] ]}))))
                         note (mkState true [])))
           eq_refl).
Defined.

Lemma decision_reads_only_rule_keys_witness :
  decide Integer_toString
    (mkContext note
       (Some (mkCache
                (Some (<[ lit "tags" := JArray [JString (lit "a")] ]>
                         {[ lit "hideside" := JBool true ]})))))
    DEFAULT_SETTINGS
  = decide Integer_toString
      (mkContext note
         (Some (mkCache (Some {[ lit "hideside" := JString (lit " true") ]}))))
      DEFAULT_SETTINGS.
Proof.
  refine (decision_reads_only_rule_keys Integer_toString note DEFAULT_SETTINGS
            _ _ _).
  intros rule [<-|[]]. reflexivity.
Defined.

Lemma frontmatter_rule_on_own_keys_witness :
  existsb (pathRuleMatches note) [lit "x/"] = false
  /\ decide Integer_toString
       (mkContext note
          (Some (mkCache
                   (Some {[ lit "kanban-plugin" := JString (lit " board") ]}))))
       (mkSettings [lit "x/"] [kanban])
     = Array_some
         (frontmatterRuleMatches Integer_toString
            {[ lit "kanban-plugin" := JString (lit " board") ]})
         [kanban].
Proof.
  split; [reflexivity|].
  exact (proj1 (proj2 (frontmatter_rule_on_own_keys Integer_toString))
           (mkContext note
              (Some (mkCache
                       (Some {[ lit "kanban-plugin" := JString (lit " board") ]}))))
           (mkSettings [lit "x/"] [kanban]) _ eq_refl eq_refl).
Defined.

Lemma absent_plain_key_never_matches_witness :
  ({[ lit "tags" := JArray [] ]} : gmap jsstring (@JsValue Z))
    !! lit "hideside" = None
  /\ ObjectPrototype_get (lit "hideside") = (RUndefined : @Read Z)
  /\ frontmatterRuleMatches Integer_toString {[ lit "tags" := JArray [] ]}
       (mkRule (lit "hideside") (lit "undefined")) = Returned false.
Proof.
  split; [reflexivity|]. split; [reflexivity|].
  exact (proj1 (absent_plain_key_never_matches Integer_toString
                  {[ lit "tags" := JArray [] ]} (lit "hideside")
                  eq_refl eq_refl)
           (lit "undefined")).
Defined.

Lemma rule_order_is_irrelevant_when_values_convert_witness :
  decide Integer_toString
    (mkContext note
       (Some (mkCache (Some {[ lit "hideside" := JBool true ]}))))
    (mkSettings [lit "x/"; lit ".pdf"] [hideside; kanban])
  = decide Integer_toString
      (mkContext note
         (Some (mkCache (Some {[ lit "hideside" := JBool true ]}))))
      (mkSettings [lit ".pdf"; lit "x/"] [kanban; hideside]).
Proof.
  refine (proj2 (rule_order_is_irrelevant_when_values_convert Integer_toString
                   (mkContext note
                      (Some (mkCache (Some {[ lit "hideside" := JBool true ]}))))
                   _ _ _ _ (perm_swap _ _ []) (perm_swap _ _ [])) _).
  intros fm Hfm. injection Hfm as <-.
  intros rule [<-|[<-|[]]]; discriminate.
Defined.

Lemma deleting_an_inert_rule_changes_nothing_witness :
  decide Integer_toString
    (mkContext note
       (Some (mkCache (Some {[ lit "hideside" := JBool true ]}))))
    (mutate (DeleteClicked 0) (mkSettings [lit "x/"] [kanban; hideside]))
  = decide Integer_toString
      (mkContext note
         (Some (mkCache (Some {[ lit "hideside" := JBool true ]}))))
      (mkSettings [lit "x/"] [kanban; hideside]).
Proof.
  exact (proj2 (deleting_an_inert_rule_changes_nothing Integer_toString
                  (mkContext note
                     (Some (mkCache (Some {[ lit "hideside" := JBool true ]}))))
                  (mkSettings [lit "x/"] [kanban; hideside]) 0 kanban eq_refl)
           eq_refl).
Defined.

Lemma adding_a_blank_rule_changes_nothing_witness :
  decide Integer_toString
    (mkContext note
       (Some (mkCache (Some {[ lit "hideside" := JBool true ]}))))
    (mutate AddClicked (mkSettings [] []))
  = decide Integer_toString
      (mkContext note
         (Some (mkCache (Some {[ lit "hideside" := JBool true ]}))))
      (mkSettings [] []).
Proof.
  refine (adding_a_blank_rule_changes_nothing Integer_toString _ _ _).
  intros fm H. injection H as <-. reflexivity.
Defined.

Lemma folder_rule_covers_subfolders_witness :
  pathRuleMatches (mkFile (lit "docs/" ++ lit "sub/a.md") (lit "md"))
    (lit "docs/") = true.
Proof.
  exact (folder_rule_covers_subfolders (lit "docs/") (lit "docs/")
           (lit "sub/a.md") [] (lit "md") eq_refl eq_refl).
Defined.

Lemma sidebar_follows_last_opened_file_witness :
  leftSplit_collapsed
    (w_app
       (runEvents Integer_toString
          ([TabChanged (PathsChanged (lit ".pdf"))]
           ++ FileOpened (Some paper) (fun _ => None)
           :: [TabChanged (PathsChanged []); FileOpened None (fun _ => None)])
          (mkWorld (mkPluginState DEFAULT_SETTINGS None) (mkState false []))))
  = true.
Proof.
  exact (proj1 (sidebar_follows_last_opened_file Integer_toString
                  [TabChanged (PathsChanged (lit ".pdf"))]
                  [TabChanged (PathsChanged []); FileOpened None (fun _ => None)]
                  paper (fun _ => None)
                  (mkWorld (mkPluginState DEFAULT_SETTINGS None)
                     (mkState false []))
                  eq_refl)
           true eq_refl).
Defined.
